(** * gus: the credential lifecycle of [users.go]

    A shallow embedding of the account engine of [users.go] (sign-up,
    sign-in with sliding-window lockout, password reset and password
    change) over an explicit model of the relational store, followed by
    the properties of the specification that concern it. *)

From Stdlib Require Import ZArith List String Ascii Bool Lia.
Import ListNotations.

Open Scope string_scope.
Open Scope Z_scope.

(** ** Machine integers

    [int64] values are integers of [Z]; every arithmetic operation of the
    source wraps around modulo [2^64]. *)

Module Int64.

Definition min_int : Z := - 2 ^ 63.
Definition max_int : Z := 2 ^ 63 - 1.

Definition in_range (z : Z) : Prop := min_int <= z <= max_int.

Definition wrap (z : Z) : Z := (z + 2 ^ 63) mod 2 ^ 64 - 2 ^ 63.

Definition add (a b : Z) : Z := wrap (a + b).
Definition sub (a b : Z) : Z := wrap (a - b).
Definition mul (a b : Z) : Z := wrap (a * b).

End Int64.

(** ** Errors

    The error values the engine returns.  [ErrInvalid], [ErrNotAuth],
    [ErrTokenExpired] and the two error structs are declared next to
    [users.go]; only their identity matters here.  [ErrDriver] stands
    for any other error of [database/sql], tagged with the call that
    raised it, and [ErrBcrypt] for an error of the hash function. *)

Inductive Site : Type :=
| AttemptPrepare | AttemptExec | AttemptCount
| LookupPrepare | LookupScan
| ExistsPrepare | ExistsScan
| SignUpPrepare | SignUpExec | SignUpLastInsertId
| ResetRevoke | ResetPrepare | ResetExec
| ChangeSelect | ChangeRevoke | ChangeUpdatePrepare | ChangeUpdateExec.

Inductive error : Type :=
| ErrInvalid (messages : list string)
| ErrNotAuth
| ErrTokenExpired
| NotFoundError
| RateLimitExceededError (messages : list string)
| ErrDriver (site : Site)
| ErrBcrypt.

Inductive result (A : Type) : Type :=
| Ok (a : A)
| Err (e : error).

Arguments Ok {A} a.
Arguments Err {A} e.

Definition ErrEmailTaken : error := ErrInvalid ["That email is taken."].
Definition ErrUsernameTaken : error := ErrInvalid ["That username is taken."].
Definition ErrEmailInvalid : error := ErrInvalid ["'email' invalid."].
Definition ErrEmailRequired : error := ErrInvalid ["'email' required."].
Definition ErrInvalidResetToken : error := ErrInvalid ["Invalid reset token."].
Definition ErrPasswordInvalid : error :=
  ErrInvalid
    ["'new_password' must contain: 1 Upper, 1 Lower, 1 Number, 1 Special and 8 Chars";
     "OR any alphanumeric with a minimum of 15 chars."].

Definition ErrRateLimit : error :=
  RateLimitExceededError ["Too many sign-in attempts try again later."].

(** The outcome of a query that reads one row. *)
Inductive sqlerr : Type :=
| ErrNoRows
| ErrOther (site : Site).

(** Modelled from the spec: [CheckNotFound] is declared outside [users.go];
    sign-in relies on it turning [sql.ErrNoRows] into a [*NotFoundError]
    ("Not-found maps to the same generic NotAuthenticated error") and on
    any other error passing through. *)
Definition CheckNotFound (e : sqlerr) : error :=
  match e with
  | ErrNoRows => NotFoundError
  | ErrOther s => ErrDriver s
  end.

(** ** Time

    A clock reading is a number of milliseconds since the epoch. *)

(** Modelled from the spec: [Milliseconds] is declared outside [users.go];
    timestamps are "epoch milliseconds". *)
Definition Milliseconds (t : Z) : Z := t.

(** [time.Time.Unix]: whole seconds since the epoch. *)
Definition Unix (t : Z) : Z := t / 1000.

(** ** The store

    One list per table, in insertion order.  A query without [ORDER BY]
    returns rows in table order. *)

Record UserRow : Type := mkUserRow {
  u_id : Z;
  u_uid : string;
  u_username : string;
  u_email : string;
  u_first_name : string;
  u_last_name : string;
  u_phone : string;
  u_password_hash : string;
  u_org_id : Z;
  u_updated : Z;
  u_created : Z;
  u_deleted : Z;
  u_role : Z;
  u_suspended : Z;
  u_invite_code : string;
  u_passive : option bool
}.

Record OrgRow : Type := mkOrgRow {
  o_id : Z;
  o_suspended : bool
}.

Record AttemptRow : Type := mkAttemptRow {
  pa_username : string;
  pa_created : Z
}.

Record ResetRow : Type := mkResetRow {
  pr_user_id : Z;
  pr_email : string;
  pr_reset_token : string;
  pr_created : Z;
  pr_deleted : Z
}.

Record DB : Type := mkDB {
  users : list UserRow;
  orgs : list OrgRow;
  password_attempts : list AttemptRow;
  password_resets : list ResetRow
}.

Definition empty_db : DB := mkDB [] [] [] [].

(** ** Engine configuration and parameter structs *)

Definition Role : Type := Z.

(** A generator maps a length and the entropy it consumes to a string. *)
Definition PasswordGen : Type := Z -> string -> string.

Record UserOpts : Type := mkUserOpts {
  AuthAttempts : Z;
  AuthLockDuration : Z;
  PassGen : option PasswordGen;
  UsernameIsEmail : option bool;
  ResetTokenExpiry : Z
}.

(** [Users] holds the options as [NewUsers] leaves them: the generator and
    the username policy are no longer nil. *)
Record Users : Type := mkUsers {
  us_AuthAttempts : Z;
  us_AuthLockDuration : Z;
  us_PassGen : PasswordGen;
  us_UsernameIsEmail : bool;
  us_ResetTokenExpiry : Z
}.

Record User : Type := mkUser {
  Id : Z;
  Uid : string;
  Username : string;
  Email : string;
  FirstName : string;
  LastName : string;
  Phone : string;
  OrgId : Z;
  Updated : Z;
  Created : Z;
  UserRole : Role;
  Passive : bool;
  Suspended : bool
}.

Record Claims : Type := mkClaims {
  ClaimsRole : Role;
  ClaimsOrgId : Z;
  OrgSuspended : bool
}.

Record UserWithClaims : Type := mkUserWithClaims {
  uwc_User : User;
  uwc_Claims : Claims
}.

Definition CustomValidator : Type := option (unit -> option error).

Record SignInParams : Type := mkSignInParams {
  si_Email : string;
  si_Username : string;
  si_Password : string;
  si_CustomValidator : CustomValidator
}.

Record ExistsParams : Type := mkExistsParams {
  ex_Email : string;
  ex_Username : string
}.

Record SignUpParams : Type := mkSignUpParams {
  su_Username : string;
  su_InviteCode : string;
  su_Password : string;
  su_Email : string;
  su_FirstName : string;
  su_LastName : string;
  su_Phone : string;
  su_OrgId : Z;
  su_Role : Role;
  su_Passive : bool;
  su_CustomValidator : CustomValidator
}.

Record ResetPasswordParams : Type := mkResetPasswordParams {
  rp_Email : string;
  rp_CustomValidator : CustomValidator
}.

Record ChangePasswordParams : Type := mkChangePasswordParams {
  cp_Email : string;
  cp_ExistingPassword : string;
  cp_NewPassword : string;
  cp_ResetToken : string;
  cp_CustomValidator : CustomValidator
}.

(** What one call observes of the outside world: the clock, which store
    calls fail, and the random draws (the UUIDs and the generator's
    entropy, numbered in the order they are drawn, and the salt).
    The clock readings of one call are taken at the same instant. *)
Record Env : Type := mkEnv {
  now : Z;
  fault : Site -> bool;
  rand_uuid : nat -> string;
  rand_seed : nat -> string;
  rand_salt : string
}.

Definition no_fault : Site -> bool := fun _ => false.

(** ** Strings *)

(** [strings.ToLower], on the ASCII letters. *)
Definition lower_ascii (c : ascii) : ascii :=
  let n := nat_of_ascii c in
  if ((65 <=? n) && (n <=? 90))%nat then ascii_of_nat (n + 32) else c.

Fixpoint ToLower (s : string) : string :=
  match s with
  | EmptyString => EmptyString
  | String c r => String (lower_ascii c) (ToLower r)
  end.

(** [govalidator.IsNull]: the empty string. *)
Definition IsNull (s : string) : bool := String.eqb s "".

Definition is_upper (c : ascii) : bool :=
  let n := nat_of_ascii c in ((65 <=? n) && (n <=? 90))%nat.

Definition is_lower (c : ascii) : bool :=
  let n := nat_of_ascii c in ((97 <=? n) && (n <=? 122))%nat.

Definition is_digit (c : ascii) : bool :=
  let n := nat_of_ascii c in ((48 <=? n) && (n <=? 57))%nat.

(** A printable ASCII character that is neither a letter, a digit nor a
    space. *)
Definition is_special (c : ascii) : bool :=
  let n := nat_of_ascii c in
  ((33 <=? n) && (n <=? 126))%nat
  && negb (is_upper c) && negb (is_lower c) && negb (is_digit c).

Fixpoint contains_class (f : ascii -> bool) (s : string) : bool :=
  match s with
  | EmptyString => false
  | String c r => f c || contains_class f r
  end.

(** Modelled from the spec: [ValidatePassword] is declared outside
    [users.go].  "either (at least 1 upper, 1 lower, 1 digit, 1 special,
    length at least 8) OR (length at least 15, any composition)". *)
Definition ValidatePassword (s : string) : bool :=
  (contains_class is_upper s && contains_class is_lower s
   && contains_class is_digit s && contains_class is_special s
   && (8 <=? String.length s)%nat)
  || (15 <=? String.length s)%nat.

(** The strength rule in the words of the specification, to compare
    [ValidatePassword] and the validator with. *)
Definition has_class (f : ascii -> bool) (s : string) : Prop :=
  exists c, In c (list_ascii_of_string s) /\ f c = true.

Definition spec_strength_rule (s : string) : Prop :=
  (has_class is_upper s /\ has_class is_lower s /\ has_class is_digit s
   /\ has_class is_special s /\ (8 <= String.length s)%nat)
  \/ (15 <= String.length s)%nat.

(** ** Transactions *)

(** Modelled from the spec: [Tx] is declared outside [users.go].
    "[withTransaction(fn)] executing [fn] atomically, rolling back on any
    error returned by [fn] and committing otherwise". *)
Definition Tx {A : Type} (db : DB) (fn : DB -> result A * DB)
  : result A * DB :=
  match fn db with
  | (Ok a, db') => (Ok a, db')
  | (Err e, _) => (Err e, db)
  end.

(** ** Account administration: types

    [Get], [Update], [AssignRole], [Delete] and [List] talk to the store
    through calls of their own; their driver errors carry the message of
    the driver, which [Update] inspects. *)

Inductive AdminSite : Type :=
| GetPrepare | GetScan
| UpdatePrepare | UpdateExec
| RolePrepare | RoleExec
| DeletePrepare | DeleteExec.

Inductive admin_error : Type :=
| Engine (e : error)
| Driver (site : AdminSite) (message : string).

Inductive aresult (A : Type) : Type :=
| AOk (a : A)
| AErr (e : admin_error).

Arguments AOk {A} a.
Arguments AErr {A} e.

(** A call either returns or dereferences a nil pointer. *)
Inductive outcome (A : Type) : Type :=
| Returns (a : A)
| Panics.

Arguments Returns {A} a.
Arguments Panics {A}.

(** [ErrNotFound], declared next to [users.go]: the [*NotFoundError]
    value. *)
Definition ErrNotFound : admin_error := Engine NotFoundError.

Definition ErrPasswordRequired : error := ErrInvalid ["'password' required."].
Definition ErrUsernameOrEmailRequired : error :=
  ErrInvalid ["'username' or 'email' required."].

(** What [stmt.Exec] hands to [CheckUpdated]: the number of rows the
    statement matched, or the driver's error. *)
Inductive exec_result : Type :=
| ExecOk (rows_affected : Z)
| ExecFailed (site : AdminSite) (message : string).

(** The clock and, per store call, the message of the error it raises if
    it fails. *)
Record AdminEnv : Type := mkAdminEnv {
  a_now : Z;
  a_fault : AdminSite -> option string
}.

Definition admin_ok (t : Z) : AdminEnv := mkAdminEnv t (fun _ => None).

Record UpdateUserParams : Type := mkUpdateUserParams {
  up_Id : option Z;
  up_FirstName : option string;
  up_LastName : option string;
  up_Email : option string;
  up_Phone : option string;
  up_CustomValidator : CustomValidator
}.

Record AssignRoleParams : Type := mkAssignRoleParams {
  ar_Id : option Z;
  ar_Role : option Role;
  ar_CustomValidator : CustomValidator
}.

(** [ListArgs] is declared next to [users.go]; these are the fields [List]
    reads and copies. *)
Record ListArgs : Type := mkListArgs {
  la_Size : Z;
  la_Page : Z;
  la_Direction : string;
  la_OrderBy : string;
  la_Deleted : bool
}.

Record UserFilters : Type := mkUserFilters {
  uf_OrgId : Z;
  uf_Role : Z;
  uf_Name : string;
  uf_Email : string;
  uf_Suspended : option bool;
  uf_Phone : string
}.

Record ListUsersParams : Type := mkListUsersParams {
  lp_ListArgs : ListArgs;
  lp_CustomValidator : CustomValidator;
  lp_UserFilters : UserFilters
}.

(** A value bound to a placeholder. *)
Inductive sqlarg : Type :=
| ArgInt (z : Z)
| ArgText (s : string).

(** A listed account: the [User] with the [OrgName] that only [List]
    fills in. *)
Record ListedUser : Type := mkListedUser {
  lu_User : User;
  lu_OrgName : string
}.

Record UserListResponse : Type := mkUserListResponse {
  lr_ListArgs : ListArgs;
  lr_Total : Z;
  lr_Items : list ListedUser
}.

(** What the store answers to the two queries of [List]: to [GetRows] the
    rows (each a row of [users] with the name of its organization, if
    any) and the error the iteration ends with, and to the count query
    the count. *)
Record ListStore : Type := mkListStore {
  ls_GetRows :
    string -> ListArgs -> list sqlarg ->
    aresult (list (UserRow * option string) * option admin_error);
  ls_Count : string -> list sqlarg -> aresult Z
}.

(** What [row.Scan] reports when it does not fill its destinations. *)
Inductive scan_error : Type :=
| ScanNoRows
| ScanFailed (site : AdminSite) (message : string).

(** The zero value of [User]. *)
Definition zero_User : User :=
  mkUser 0 "" "" "" "" "" "" 0 0 0 0 false false.

(** [database/sql] scanning an integer column into a [bool]: 0 and 1 are
    the booleans, any other value is a scan error. *)
Definition bool_of_column (v : Z) : option bool :=
  if v =? 0 then Some false
  else if v =? 1 then Some true
  else None.

(** [strings.Contains] *)
Fixpoint has_prefix (pre s : string) : bool :=
  match pre, s with
  | EmptyString, _ => true
  | String a pre', String b s' => Ascii.eqb a b && has_prefix pre' s'
  | String _ _, EmptyString => false
  end.

Fixpoint Contains (s substr : string) : bool :=
  has_prefix substr s
  || match s with
     | EmptyString => false
     | String _ s' => Contains s' substr
     end.

(** The number of placeholders in a query. *)
Fixpoint placeholders (q : string) : nat :=
  match q with
  | EmptyString => O
  | String c q' => (if Ascii.eqb c "?"%char then 1 else 0) + placeholders q'
  end.

(** ** Instances for evaluation

    Two collations, a stand-in for the hash function that satisfies
    bcrypt's contract (a digest verifies exactly the password it was made
    from), a generator that returns its entropy, and an e-mail check. *)

Definition binary_eq (a b : string) : bool := String.eqb a b.

Definition nocase_eq (a b : string) : bool :=
  String.eqb (ToLower a) (ToLower b).

Definition demo_generate (password : string) (cost : Z) (salt : string)
  : option string :=
  Some ("$2a$12$" ++ password).

Definition demo_compare (hash password : string) : bool :=
  String.eqb hash ("$2a$12$" ++ password).

Definition demo_gen : PasswordGen := fun _ entropy => entropy.

Definition demo_is_email (s : string) : bool :=
  contains_class (fun c => Ascii.eqb c "@"%char) s.

Definition demo_env (t : Z) (tag : string) : Env :=
  mkEnv t no_fault
        (fun k => tag ++ match k with O => "-uuid-0" | _ => "-uuid-1" end)
        (fun k => tag ++ match k with O => "-rand-0" | _ => "-rand-1" end)
        "salt".

(** The same, with the store failing at one call. *)
Definition failing_env (t : Z) (tag : string) (site : Site) : Env :=
  mkEnv t
        (fun s => match s, site with
                  | AttemptExec, AttemptExec => true
                  | ChangeUpdatePrepare, ChangeUpdatePrepare => true
                  | ChangeUpdateExec, ChangeUpdateExec => true
                  | _, _ => false
                  end)
        (rand_uuid (demo_env t tag)) (rand_seed (demo_env t tag)) "salt".

(** An engine allowing 2 attempts per 300 seconds, usernames chosen
    freely, tokens valid for a day. *)
Definition demo_users : Users := mkUsers 2 300 demo_gen false 86400.

Definition user_row (id : Z) (username email password : string)
  (deleted : Z) (passive : bool) : UserRow :=
  mkUserRow id ("uid-" ++ username) username email "" "" ""
            ("$2a$12$" ++ password) 0 0 0 deleted 0 0 "" (Some passive).

(** Stand-ins for the helpers of the administration calls: a
    [CheckUpdated] that reports NotFound when no row matched and passes a
    driver error through, an [ApplyUpdates] that copies the fields that
    are present, and the message of an error. *)
Definition demo_CheckUpdated (r : exec_result) : option admin_error :=
  match r with
  | ExecOk n => if n =? 0 then Some ErrNotFound else None
  | ExecFailed site message => Some (Driver site message)
  end.

Definition demo_ApplyUpdates (u : User) (p : UpdateUserParams) : User :=
  let pick (o : option string) (d : string) :=
    match o with Some x => x | None => d end in
  mkUser (Id u) (Uid u) (Username u) (pick (up_Email p) (Email u))
         (pick (up_FirstName p) (FirstName u))
         (pick (up_LastName p) (LastName u)) (pick (up_Phone p) (Phone u))
         (OrgId u) (Updated u) (Created u) (UserRole u) (Passive u)
         (Suspended u).

Definition demo_error_text (e : admin_error) : string :=
  match e with
  | Driver _ message => message
  | Engine _ => ""
  end.

(** A healthy store but for the insertion of the reset token. *)
Definition reset_failing_env (t : Z) (tag : string) : Env :=
  mkEnv t (fun s => match s with ResetExec => true | _ => false end)
        (rand_uuid (demo_env t tag)) (rand_seed (demo_env t tag)) "salt".

(** A store that answers [List] with the given rows. *)
Definition demo_list_store (rows : list (UserRow * option string))
  : ListStore :=
  mkListStore (fun _ _ _ => AOk (rows, None))
              (fun _ _ => AOk (Z.of_nat (List.length rows))).

Definition ok_value {A : Type} (d : A) (r : result A) : A :=
  match r with
  | Ok a => a
  | Err _ => d
  end.

Definition returned {A : Type} (d : A) (o : outcome A) : A :=
  match o with
  | Returns a => a
  | Panics => d
  end.

Definition svc_row : UserRow := user_row 1 "svc" "svc@x.com" "pw" 0 true.

Definition al_signup : SignUpParams :=
  mkSignUpParams "" "" "" "al@x.com" "" "" "" 0 0 false None.

Definition alice_again : SignUpParams :=
  mkSignUpParams "" "" "pw" "alice@x.com" "" "" "" 0 0 false None.

Definition new_email : UpdateUserParams :=
  mkUpdateUserParams (Some 1) None None (Some "new@x.com") None None.

Definition by_name (name : string) : ListUsersParams :=
  mkListUsersParams (mkListArgs 10 0 "asc" "id" false) None
                    (mkUserFilters 0 0 name "" None "").

(** Stores and requests the evaluations below start from. *)

Definition is_ok {A : Type} (r : result A) : bool :=
  match r with
  | Ok _ => true
  | Err _ => false
  end.

Definition bob_row : UserRow := user_row 1 "bob" "bob@x.com" "secret" 0 false.

Definition lock_db : DB :=
  mkDB [bob_row] []
       [mkAttemptRow "bob" 1000; mkAttemptRow "bob" 99800000;
        mkAttemptRow "eve" 99850000; mkAttemptRow "bob" 99900000]
       [].

Definition bob_signin : SignInParams := mkSignInParams "" "bob" "secret" None.

Definition passive_signup : SignUpParams :=
  mkSignUpParams "" "" "" "svc@x.com" "" "" "" 0 0 true None.

Definition first_signup : SignUpParams :=
  mkSignUpParams "a@x.com" "" "pw1" "b@y.com" "" "" "" 0 0 false None.

Definition second_signup : SignUpParams :=
  mkSignUpParams "" "" "pw2" "a@x.com" "" "" "" 0 0 false None.

(** The engine with the constructor's username policy: the username is
    the e-mail. *)
Definition default_policy_users : Users := mkUsers 2 300 demo_gen true 86400.

Definition lower_signup : SignUpParams :=
  mkSignUpParams "" "" "pw1" "a@x.com" "" "" "" 0 0 false None.

Definition upper_signup : SignUpParams :=
  mkSignUpParams "" "" "pw2" "A@X.COM" "" "" "" 0 0 false None.

Definition deleted_alice : UserRow :=
  user_row 1 "alice" "alice@x.com" "secret" 1 false.

Definition alice_row : UserRow :=
  user_row 1 "alice" "alice@x.com" "old" 0 false.

Definition alice_token : ResetRow := mkResetRow 1 "alice@x.com" "tok" 1000 0.

Definition alice_db : DB := mkDB [alice_row] [] [] [alice_token].

Definition alice_change (new_password : string) : ChangePasswordParams :=
  mkChangePasswordParams "alice@x.com" "" new_password "tok" None.

(** An account whose username is itself shaped like an e-mail address and
    differs from its e-mail. *)
Definition bobby_db : DB :=
  mkDB [user_row 1 "bob@a.com" "bob@x.com" "secret" 0 false] [] [] [].

Section Engine.

(** The collation of the text columns: how the store decides [col = ?]. *)
Variable sql_eq : string -> string -> bool.

(** [bcrypt.GenerateFromPassword] (password, cost, salt), [None] on error,
    and [bcrypt.CompareHashAndPassword] (hash, password), [true] for a
    match. *)
Variable bcrypt_GenerateFromPassword : string -> Z -> string -> option string.
Variable bcrypt_CompareHashAndPassword : string -> string -> bool.

(** The default generator, declared outside [users.go]. *)
Variable RandStringBytesMaskImprSrc : PasswordGen.

Definition NewUsers (opt : UserOpts) : Users :=
  let lock := if AuthLockDuration opt =? 0 then Int64.mul 5 60
              else AuthLockDuration opt in
  let expiry := if ResetTokenExpiry opt =? 0
                then Int64.mul (Int64.mul (Int64.mul 24 60) 60) 1000
                else ResetTokenExpiry opt in
  let gen := match PassGen opt with
             | None => RandStringBytesMaskImprSrc
             | Some g => g
             end in
  let uie := match UsernameIsEmail opt with
             | None => true
             | Some b => b
             end in
  mkUsers (AuthAttempts opt) lock gen uie expiry.

Definition hashPassword (e : Env) (password : string) : result string :=
  match bcrypt_GenerateFromPassword password 12 (rand_salt e) with
  | None => Err ErrBcrypt
  | Some hash => Ok hash
  end.

(** *** The rate limiter *)

(** [INSERT into password_attempts (username, created) values (?, ?)] *)
Definition insert_attempt (db : DB) (username : string) (created : Z) : DB :=
  mkDB (users db) (orgs db)
       (password_attempts db ++ [mkAttemptRow username created])
       (password_resets db).

(** [WHERE created > ? AND username = ?] *)
Definition in_window (since : Z) (username : string) (a : AttemptRow) : bool :=
  (pa_created a >? since) && sql_eq (pa_username a) username.

(** [SELECT COUNT(username) FROM password_attempts WHERE ...] *)
Definition count_attempts (db : DB) (since : Z) (username : string) : Z :=
  Z.of_nat (List.length (filter (in_window since username) (password_attempts db))).

(** [since := (time.Now().Unix() - us.AuthLockDuration) * 1000] *)
Definition window_start (us : Users) (t : Z) : Z :=
  Int64.mul (Int64.sub (Unix t) (us_AuthLockDuration us)) 1000.

Definition isLocked (us : Users) (e : Env) (db : DB) (username : string)
  : bool * DB :=
  if fault e AttemptPrepare then (true, db)
  else if fault e AttemptExec then (true, db)
  else
    let db1 := insert_attempt db username (Milliseconds (now e)) in
    let since := window_start us (now e) in
    if fault e AttemptCount then (true, db1)
    else (count_attempts db1 since username >? us_AuthAttempts us, db1).

(** *** Account lookup *)

(** [users u left join orgs o on u.org_id = o.id] *)
Definition left_join_orgs (db : DB) : list (UserRow * option OrgRow) :=
  flat_map
    (fun u =>
       match filter (fun o => o_id o =? u_org_id u) (orgs db) with
       | [] => [(u, None)]
       | os => map (fun o => (u, Some o)) os
       end)
    (users db).

(** [WHERE u.email = ? OR u.username = ? AND u.deleted = 0]: [AND] binds
    tighter than [OR]. *)
Definition lookup_where (username : string) (r : UserRow * option OrgRow)
  : bool :=
  sql_eq (u_email (fst r)) username
  || (sql_eq (u_username (fst r)) username && (u_deleted (fst r) =? 0)).

(** The row [LIMIT 1] leaves. *)
Definition lookup_query (db : DB) (username : string)
  : option (UserRow * option OrgRow) :=
  find (lookup_where username) (left_join_orgs db).

(** [row.Scan] into the [User], with [COALESCE(o.suspended, 0)] and the
    nullable [passive]. *)
Definition scan_claims (r : UserRow * option OrgRow) : UserWithClaims :=
  let u := fst r in
  let orgSuspended := match snd r with
                      | Some o => o_suspended o
                      | None => false
                      end in
  let passive := match u_passive u with
                 | Some b => b
                 | None => false
                 end in
  mkUserWithClaims
    (mkUser (u_id u) (u_uid u) (u_username u) (u_email u) (u_first_name u)
            (u_last_name u) (u_phone u) (u_org_id u) (u_updated u)
            (u_created u) (u_role u) passive (u_suspended u >? 0))
    (mkClaims (u_role u) (u_org_id u) orgSuspended).

Definition GetByUsername (e : Env) (db : DB) (username : string)
  : result (UserWithClaims * string) :=
  if fault e LookupPrepare then Err (ErrDriver LookupPrepare)
  else if fault e LookupScan then Err (CheckNotFound (ErrOther LookupScan))
  else match lookup_query db username with
       | None => Err (CheckNotFound ErrNoRows)
       | Some r => Ok (scan_claims r, u_password_hash (fst r))
       end.

(** *** Sign-in *)

(** The identifier sign-in uses. *)
Definition signin_identifier (us : Users) (p : SignInParams) : string :=
  if String.eqb (si_Email p) "" then si_Username p
  else
    let username := if us_UsernameIsEmail us then si_Email p
                    else si_Username p in
    if String.eqb username "" then si_Email p else username.

(** The part of [SignIn] that follows the lock check: account lookup,
    suspension and passive gates, password comparison. *)
Definition authenticate (us : Users) (e : Env) (db1 : DB)
  (username password : string) : result UserWithClaims * DB :=
  match GetByUsername e db1 username with
  | Err NotFoundError => (Err ErrNotAuth, db1)
  | Err err => (Err err, db1)
  | Ok (u, hash) =>
      if Suspended (uwc_User u) || OrgSuspended (uwc_Claims u)
         || Passive (uwc_User u)
      then
        (* Debug("FAILED ATTEMPT:", us.isLocked(p.Username)) *)
        let '(_, db2) := isLocked us e db1 username in
        (Err ErrNotAuth, db2)
      else if bcrypt_CompareHashAndPassword hash password
           then (Ok u, db1)
           else (Err ErrNotAuth, db1)
  end.

Definition SignIn (us : Users) (e : Env) (db : DB) (p : SignInParams)
  : result UserWithClaims * DB :=
  let username := signin_identifier us p in
  let '(locked, db1) := isLocked us e db username in
  if locked then (Err ErrRateLimit, db1)
  else authenticate us e db1 username (si_Password p).

(** *** Sign-up *)

(** [WHERE deleted = 0 AND username = ? OR email = ?] *)
Definition exists_where (p : ExistsParams) (u : UserRow) : bool :=
  ((u_deleted u =? 0) && sql_eq (u_username u) (ex_Username p))
  || sql_eq (u_email u) (ex_Email p).

(** [Users.exists].  The source returns a pair: [(false, nil)] is [Ok false]
    here and [(true, err)] is [Err err]; it never returns [true] without
    an error. *)
Definition exists_ (e : Env) (tx : DB) (p : ExistsParams) : result bool :=
  if fault e ExistsPrepare then Err (ErrDriver ExistsPrepare)
  else if fault e ExistsScan then Err (ErrDriver ExistsScan)
  else
    match find (exists_where p) (users tx) with
    | None => Ok false
    | Some u =>
        if String.eqb (ToLower (u_email u)) (ToLower (ex_Email p))
        then Err ErrEmailTaken
        else if String.eqb (ToLower (u_username u)) (ToLower (ex_Username p))
             then Err ErrUsernameTaken
             else Ok false
    end.

(** The id an auto-increment key gives the next row. *)
Definition next_user_id (db : DB) : Z :=
  1 + fold_right Z.max 0 (map u_id (users db)).

Definition insert_user (db : DB) (r : UserRow) : DB :=
  mkDB (users db ++ [r]) (orgs db) (password_attempts db) (password_resets db).

(** [UPDATE password_resets set deleted = 1 where email = ?] *)
Definition revoke_resets (db : DB) (email : string) : DB :=
  mkDB (users db) (orgs db) (password_attempts db)
       (map (fun r =>
               if sql_eq (pr_email r) email
               then mkResetRow (pr_user_id r) (pr_email r) (pr_reset_token r)
                               (pr_created r) 1
               else r)
            (password_resets db)).

Definition insert_reset (db : DB) (r : ResetRow) : DB :=
  mkDB (users db) (orgs db) (password_attempts db) (password_resets db ++ [r]).

Definition ResetPassword (us : Users) (e : Env) (db : DB)
  (p : ResetPasswordParams) : result string * DB :=
  match GetByUsername e db (rp_Email p) with
  | Err err => (Err err, db)
  | Ok (u, _) =>
      if Passive (uwc_User u) then (Err ErrNotAuth, db)
      else
        let token := us_PassGen us 128 (rand_seed e 0%nat) in
        Tx db (fun tx =>
          if fault e ResetRevoke then (Err (ErrDriver ResetRevoke), tx)
          else
            let tx1 := revoke_resets tx (rp_Email p) in
            if fault e ResetPrepare then (Err (ErrDriver ResetPrepare), tx1)
            else if fault e ResetExec then (Err (ErrDriver ResetExec), tx1)
            else
              (Ok token,
               insert_reset tx1
                 (mkResetRow (Id (uwc_User u)) (Email (uwc_User u)) token
                             (Milliseconds (now e)) 0)))
  end.

(** The environment a nested call sees once the caller has drawn from the
    generator. *)
Definition after_draw (e : Env) : Env :=
  mkEnv (now e) (fault e) (rand_uuid e) (fun k => rand_seed e (S k))
        (rand_salt e).

Definition SignUp (us : Users) (e : Env) (db : DB) (p : SignUpParams)
  : result (User * string) * DB :=
  let email := if su_Passive p && String.eqb (su_Email p) ""
               then rand_uuid e 0%nat ++ "@passive-user.gus"
               else su_Email p in
  let r := Tx db (fun tx =>
    match exists_ e tx (mkExistsParams email (su_Username p)) with
    | Err err => (Err err, tx)
    | Ok _ =>
        if fault e SignUpPrepare then (Err (ErrDriver SignUpPrepare), tx)
        else
          let username :=
            if us_UsernameIsEmail us || String.eqb (su_Username p) ""
            then email else su_Username p in
          let u := mkUser 0 (rand_uuid e 1%nat) username email
                          (su_FirstName p) (su_LastName p) (su_Phone p)
                          (su_OrgId p) (Milliseconds (now e))
                          (Milliseconds (now e)) (su_Role p) (su_Passive p)
                          false in
          let givenPassword := negb (String.eqb (su_Password p) "") in
          let password := if givenPassword then su_Password p
                          else us_PassGen us 128 (rand_seed e 0%nat) in
          match hashPassword e password with
          | Err err => (Err err, tx)
          | Ok hash =>
              if fault e SignUpExec then (Err (ErrDriver SignUpExec), tx)
              else
                let id := next_user_id tx in
                let tx1 :=
                  insert_user tx
                    (mkUserRow id (Uid u) (Username u) (Email u)
                               (FirstName u) (LastName u) (Phone u) hash
                               (OrgId u) (Updated u) (Created u) 0
                               (UserRole u) 0 (su_InviteCode p)
                               (Some (su_Passive p))) in
                if fault e SignUpLastInsertId
                then (Err (ErrDriver SignUpLastInsertId), tx1)
                else (Ok (u, id, givenPassword), tx1)
          end
    end) in
  match r with
  | (Err err, db1) => (Err err, db1)
  | (Ok (u0, id, givenPassword), db1) =>
      let u := mkUser id (Uid u0) (Username u0) (Email u0) (FirstName u0)
                      (LastName u0) (Phone u0) (OrgId u0) (Updated u0)
                      (Created u0) (UserRole u0) (Passive u0)
                      (Suspended u0) in
      if givenPassword then (Ok (u, ""), db1)
      else if negb (Passive u) then
        match ResetPassword us (after_draw e) db1
                (mkResetPasswordParams email None) with
        | (Err err, db2) => (Err err, db2)
        | (Ok activateToken, db2) => (Ok (u, activateToken), db2)
        end
      else (Ok (u, ""), db1)
  end.

(** *** Change password *)

Variable govalidator_IsEmail : string -> bool.

Definition ChangePasswordParams_Validate (va : ChangePasswordParams)
  : option error :=
  match cp_CustomValidator va with
  | Some validator => validator tt
  | None =>
      if IsNull (cp_Email va) then Some ErrEmailRequired
      else if negb (govalidator_IsEmail (cp_Email va))
      then Some ErrEmailInvalid
      else if IsNull (cp_ExistingPassword va) && IsNull (cp_ResetToken va)
      then Some (ErrInvalid ["'existing_password' or 'reset_token' required."])
      else if IsNull (cp_NewPassword va)
      then Some (ErrInvalid ["'new_password' is required."])
      else if negb (ValidatePassword (cp_NewPassword va))
      then Some ErrPasswordInvalid
      else None
  end.

(** [SELECT reset_token, created FROM password_resets where email = ? and
    deleted = 0 ORDER BY created DESC LIMIT 1]: among the live rows of the
    email, the one created last (of several created at the same
    millisecond, the first in table order). *)
Definition live_reset (email : string) (r : ResetRow) : bool :=
  sql_eq (pr_email r) email && (pr_deleted r =? 0).

Definition newer (best : option ResetRow) (r : ResetRow) : option ResetRow :=
  match best with
  | None => Some r
  | Some b => if pr_created r >? pr_created b then Some r else Some b
  end.

Definition latest_reset (db : DB) (email : string) : option ResetRow :=
  fold_left newer (filter (live_reset email) (password_resets db)) None.

(** [created + us.ResetTokenExpiry*1000] *)
Definition expires_at (us : Users) (created : Z) : Z :=
  Int64.add created (Int64.mul (us_ResetTokenExpiry us) 1000).

(** [UPDATE users SET password_hash = ?, updated = ? WHERE email = ? AND
    deleted = 0] *)
Definition update_password (db : DB) (hash : string) (updated : Z)
  (email : string) : DB :=
  mkDB (map (fun u =>
               if sql_eq (u_email u) email && (u_deleted u =? 0)
               then mkUserRow (u_id u) (u_uid u) (u_username u) (u_email u)
                              (u_first_name u) (u_last_name u) (u_phone u)
                              hash (u_org_id u) updated (u_created u)
                              (u_deleted u) (u_role u) (u_suspended u)
                              (u_invite_code u) (u_passive u)
               else u)
            (users db))
       (orgs db) (password_attempts db) (password_resets db).

(** The transaction of the token path. *)
Definition consume_token (us : Users) (e : Env) (p : ChangePasswordParams)
  (tx : DB) : result unit * DB :=
  if fault e ChangeSelect then (Err (CheckNotFound (ErrOther ChangeSelect)), tx)
  else
    match latest_reset tx (cp_Email p) with
    | None => (Err (CheckNotFound ErrNoRows), tx)
    | Some r =>
        if negb (String.eqb (pr_reset_token r) (cp_ResetToken p))
        then (Err ErrInvalidResetToken, tx)
        else if Milliseconds (now e) >? expires_at us (pr_created r)
        then (Err ErrTokenExpired, tx)
        else if fault e ChangeRevoke then (Err (ErrDriver ChangeRevoke), tx)
        else (Ok tt, revoke_resets tx (cp_Email p))
    end.

Definition ChangePassword (us : Users) (e : Env) (db : DB)
  (p : ChangePasswordParams) : option error * DB :=
  let proof : result unit * DB :=
    if negb (String.eqb (cp_ExistingPassword p) "") then
      match SignIn us e db
              (mkSignInParams "" (cp_Email p) (cp_ExistingPassword p) None) with
      | (Err err, db1) => (Err err, db1)
      | (Ok _, db1) => (Ok tt, db1)
      end
    else if negb (String.eqb (cp_ResetToken p) "") then
      Tx db (consume_token us e p)
    else (Err ErrNotAuth, db) in
  match proof with
  | (Err err, db1) => (Some err, db1)
  | (Ok _, db1) =>
      match hashPassword e (cp_NewPassword p) with
      | Err err => (Some err, db1)
      | Ok hash =>
          if fault e ChangeUpdatePrepare
          then (Some (CheckNotFound (ErrOther ChangeUpdatePrepare)), db1)
          else if fault e ChangeUpdateExec then (None, db1)
          else (None,
                update_password db1 hash (Milliseconds (now e)) (cp_Email p))
      end
  end.

(** *** Existence check *)

(** [Users.Exists]: the pair it returns. *)
Definition Users_Exists (e : Env) (db : DB) (p : ExistsParams)
  : (bool * option error) * DB :=
  match Tx db (fun tx =>
                 match exists_ e tx p with
                 | Err err => (Err err, tx)
                 | Ok b => (Ok b, tx)
                 end) with
  | (Err err, db1) => ((false, Some err), db1)
  | (Ok b, db1) => ((b, None), db1)
  end.

(** *** Parameter validation *)

Definition run_validator (validator : unit -> option error) : option error :=
  validator tt.

Definition SignUpParams_Validate (va : SignUpParams) : option error :=
  match su_CustomValidator va with
  | Some validator => run_validator validator
  | None =>
      if negb (govalidator_IsEmail (su_Email va)) then Some ErrEmailRequired
      else None
  end.

Definition SignInParams_Validate (va : SignInParams) : option error :=
  match si_CustomValidator va with
  | Some validator => run_validator validator
  | None =>
      if IsNull (si_Password va) then Some ErrPasswordRequired
      else if negb (govalidator_IsEmail (si_Username va))
              && IsNull (si_Username va)
      then Some ErrUsernameOrEmailRequired
      else None
  end.

Definition ResetPasswordParams_Validate (va : ResetPasswordParams)
  : option error :=
  match rp_CustomValidator va with
  | Some validator => run_validator validator
  | None =>
      if IsNull (rp_Email va) then Some ErrEmailRequired
      else if negb (govalidator_IsEmail (rp_Email va))
      then Some ErrEmailInvalid
      else None
  end.

(** [*va.Email] is dereferenced without a nil check. *)
Definition UpdateUserParams_Validate (va : UpdateUserParams)
  : outcome (option error) :=
  match up_CustomValidator va with
  | Some validator => Returns (run_validator validator)
  | None =>
      match up_Email va with
      | None => Panics
      | Some email =>
          if negb (String.eqb email "") && negb (govalidator_IsEmail email)
          then Returns (Some (ErrInvalid ["'email' invalid."]))
          else Returns None
      end
  end.

Definition AssignRoleParams_Validate (va : AssignRoleParams) : option error :=
  match ar_CustomValidator va with
  | Some validator => run_validator validator
  | None =>
      match ar_Role va with
      | None =>
          Some (ErrInvalid
                  ["A 'role' is required. Supply '0' for no permissions."])
      | Some _ => None
      end
  end.

Definition ListUsersParams_Validate (va : ListUsersParams) : option error :=
  match lp_CustomValidator va with
  | Some validator => run_validator validator
  | None => None
  end.

(** *** Get, Update, AssignRole, Delete *)

(** [CheckUpdated], [ApplyUpdates] and the [Error] method of the error
    values are declared outside [users.go]. *)
Variable CheckUpdated : exec_result -> option admin_error.
Variable ApplyUpdates : User -> UpdateUserParams -> User.
Variable error_text : admin_error -> string.

(** [WHERE id = ? AND deleted = 0] *)
Definition live_with_id (id : Z) (u : UserRow) : bool :=
  (u_id u =? id) && (u_deleted u =? 0).

(** [row.Scan] of [scanUser]. *)
Definition scan_user (u : UserRow) : User :=
  mkUser (u_id u) (u_uid u) (u_username u) (u_email u) (u_first_name u)
         (u_last_name u) (u_phone u) (u_org_id u) (u_updated u) (u_created u)
         (u_role u)
         (match u_passive u with Some b => b | None => false end)
         (u_suspended u >? 0).

Definition CheckRows (u : User) (e : option scan_error) : aresult User :=
  match e with
  | None => AOk u
  | Some ScanNoRows => AErr ErrNotFound
  | Some (ScanFailed site message) => AErr (Driver site message)
  end.

Definition scanUser (e : AdminEnv) (row : option UserRow) : aresult User :=
  match a_fault e GetScan with
  | Some message => CheckRows zero_User (Some (ScanFailed GetScan message))
  | None =>
      match row with
      | None => CheckRows zero_User (Some ScanNoRows)
      | Some r => CheckRows (scan_user r) None
      end
  end.

Definition Get (e : AdminEnv) (db : DB) (id : Z) : aresult User :=
  match a_fault e GetPrepare with
  | Some message => AErr (Driver GetPrepare message)
  | None => scanUser e (find (live_with_id id) (users db))
  end.

(** [UPDATE users SET ... WHERE ...] run through [stmt.Exec]. *)
Definition exec_update (e : AdminEnv) (site : AdminSite) (db : DB)
  (matches : UserRow -> bool) (set : UserRow -> UserRow) : exec_result * DB :=
  match a_fault e site with
  | Some message => (ExecFailed site message, db)
  | None =>
      (ExecOk (Z.of_nat (List.length (filter matches (users db)))),
       mkDB (map (fun u => if matches u then set u else u) (users db))
            (orgs db) (password_attempts db) (password_resets db))
  end.

(** [SET first_name = ?, last_name = ?, email = ?, phone = ?, updated = ?] *)
Definition set_profile (first last email phone : string) (updated : Z)
  (u : UserRow) : UserRow :=
  mkUserRow (u_id u) (u_uid u) (u_username u) email first last phone
            (u_password_hash u) (u_org_id u) updated (u_created u)
            (u_deleted u) (u_role u) (u_suspended u) (u_invite_code u)
            (u_passive u).

(** [SET role = ?, updated = ?] *)
Definition set_role (role : Role) (updated : Z) (u : UserRow) : UserRow :=
  mkUserRow (u_id u) (u_uid u) (u_username u) (u_email u) (u_first_name u)
            (u_last_name u) (u_phone u) (u_password_hash u) (u_org_id u)
            updated (u_created u) (u_deleted u) role (u_suspended u)
            (u_invite_code u) (u_passive u).

(** [SET deleted = 1, updated = ?] *)
Definition set_deleted (updated : Z) (u : UserRow) : UserRow :=
  mkUserRow (u_id u) (u_uid u) (u_username u) (u_email u) (u_first_name u)
            (u_last_name u) (u_phone u) (u_password_hash u) (u_org_id u)
            updated (u_created u) 1 (u_role u) (u_suspended u)
            (u_invite_code u) (u_passive u).

Definition Update (e : AdminEnv) (db : DB) (p : UpdateUserParams)
  : outcome (option admin_error * DB) :=
  match up_Id p with
  | None => Panics
  | Some id =>
      match Get e db id with
      | AErr err => Returns (Some err, db)
      | AOk u0 =>
          let u := ApplyUpdates u0 p in
          match a_fault e UpdatePrepare with
          | Some message => Returns (Some (Driver UpdatePrepare message), db)
          | None =>
              let '(r, db1) :=
                exec_update e UpdateExec db (live_with_id (Id u))
                  (set_profile (FirstName u) (LastName u) (Email u) (Phone u)
                               (Milliseconds (a_now e))) in
              match CheckUpdated r with
              | Some err =>
                  if Contains (error_text err) "Duplicate entry"
                  then Returns (Some (Engine ErrEmailTaken), db1)
                  else Returns (Some err, db1)
              | None => Returns (None, db1)
              end
          end
      end
  end.

Definition AssignRole (e : AdminEnv) (db : DB) (p : AssignRoleParams)
  : outcome (option admin_error * DB) :=
  match ar_Id p with
  | None => Panics
  | Some id =>
      match Get e db id with
      | AErr err => Returns (Some err, db)
      | AOk u =>
          if Passive u
          then Returns
                 (Some (Engine (ErrInvalid
                                  ["This user is passive, cannot assign a role"])),
                  db)
          else
            match a_fault e RolePrepare with
            | Some message => Returns (Some (Driver RolePrepare message), db)
            | None =>
                let role := match ar_Role p with
                            | None => 0
                            | Some r => r
                            end in
                let '(r, db1) :=
                  exec_update e RoleExec db (live_with_id (Id u))
                    (set_role role (Milliseconds (a_now e))) in
                Returns (CheckUpdated r, db1)
            end
      end
  end.

Definition Delete (e : AdminEnv) (db : DB) (id : Z)
  : option admin_error * DB :=
  match a_fault e DeletePrepare with
  | Some message => (Some (Driver DeletePrepare message), db)
  | None =>
      let '(r, db1) :=
        exec_update e DeleteExec db (live_with_id id)
          (set_deleted (Milliseconds (a_now e))) in
      (CheckUpdated r, db1)
  end.

(** *** List *)

Definition addClause (sqla sqlb clause : string) (params : list sqlarg)
  (val : sqlarg) : string * string * list sqlarg :=
  (sqla ++ clause, sqlb ++ clause, (params ++ [val])%list).

(** [q += clause; countq += clause] *)
Definition plainClause (st : string * string * list sqlarg) (clause : string)
  : string * string * list sqlarg :=
  let '(q, countq, args) := st in (q ++ clause, countq ++ clause, args).

Definition withClause (st : string * string * list sqlarg) (clause : string)
  (val : sqlarg) : string * string * list sqlarg :=
  let '(q, countq, args) := st in addClause q countq clause args val.

Definition list_select : string :=
  "SELECT u.id, u.uid, u.username, u.email, u.first_name, u.last_name, u.phone,"
  ++ " u.org_id, o.name as org_name, u.created, u.updated, u.role, u.suspended, u.passive "
  ++ "From users u left join orgs o on u.org_id = o.id WHERE 1".

Definition list_count : string := "SELECT count(u.id) FROM users u WHERE 1".

(** Both queries are their fixed head followed by the same filter text,
    with one argument per placeholder. *)
Definition shares_filters (st : string * string * list sqlarg) : Prop :=
  exists filters,
    fst (fst st) = list_select ++ filters
    /\ snd (fst st) = list_count ++ filters
    /\ placeholders filters = List.length (snd st).

(** Which filters a request carries, whatever their values. *)
Definition filters_present (p : ListUsersParams)
  : bool * bool * bool * option bool * bool * bool * bool :=
  let f := lp_UserFilters p in
  (la_Deleted (lp_ListArgs p), uf_OrgId f >? 0, uf_Role f >? 0,
   uf_Suspended f, String.eqb (uf_Name f) "", String.eqb (uf_Phone f) "",
   String.eqb (uf_Email f) "").

(** The two queries of [List] and the arguments bound to them. *)
Definition list_queries (p : ListUsersParams)
  : string * string * list sqlarg :=
  let f := lp_UserFilters p in
  let st0 := (list_select, list_count, @nil sqlarg) in
  let st1 := if negb (la_Deleted (lp_ListArgs p))
             then plainClause st0 " AND u.deleted = 0" else st0 in
  let st2 := if uf_OrgId f >? 0
             then withClause st1 " AND u.org_id = ?" (ArgInt (uf_OrgId f))
             else st1 in
  let st3 := if uf_Role f >? 0
             then withClause st2 " AND u.role = ?" (ArgInt (uf_Role f))
             else st2 in
  let st4 := match uf_Suspended f with
             | Some true => plainClause st3 " AND u.suspended = 1"
             | Some false => plainClause st3 " AND u.suspended = 0"
             | None => st3
             end in
  let st5 := if negb (String.eqb (uf_Name f) "")
             then withClause
                    (withClause st4 " AND (u.first_name like ?"
                                (ArgText ("%" ++ uf_Name f ++ "%")))
                    " OR u.last_name like ?)"
                    (ArgText ("%" ++ uf_Name f ++ "%"))
             else st4 in
  let st6 := if negb (String.eqb (uf_Phone f) "")
             then withClause st5 " AND u.phone like ?"
                             (ArgText ("%" ++ uf_Phone f ++ "%"))
             else st5 in
  if negb (String.eqb (uf_Email f) "")
  then withClause st6 " AND u.email like ?"
                  (ArgText ("%" ++ uf_Email f ++ "%"))
  else st6.

(** [rows.Scan] inside the loop of [List]: [u.Suspended] is scanned as a
    [bool]. *)
Definition scan_listed (r : UserRow * option string) : option ListedUser :=
  let u := fst r in
  match bool_of_column (u_suspended u) with
  | None => None
  | Some suspended =>
      Some (mkListedUser
              (mkUser (u_id u) (u_uid u) (u_username u) (u_email u)
                      (u_first_name u) (u_last_name u) (u_phone u)
                      (u_org_id u) (u_updated u) (u_created u) (u_role u)
                      (match u_passive u with Some b => b | None => false end)
                      suspended)
              (match snd r with Some name => name | None => "" end))
  end.

(** The loop over the rows: [None] when a scan fails. *)
Fixpoint scan_rows (rows : list (UserRow * option string))
  : option (list ListedUser) :=
  match rows with
  | [] => Some []
  | r :: rest =>
      match scan_listed r with
      | None => None
      | Some u =>
          match scan_rows rest with
          | None => None
          | Some us => Some (u :: us)
          end
      end
  end.

Definition List (store : ListStore) (p : ListUsersParams)
  : option UserListResponse * option admin_error :=
  let '(q, countq, args) := list_queries p in
  match ls_GetRows store q (lp_ListArgs p) args with
  | AErr err => (None, Some err)
  | AOk (rows, rows_err) =>
      match ls_Count store countq args with
      | AErr err => (None, Some err)
      | AOk total =>
          match scan_rows rows with
          | None =>
              (* return nil, err: the error of the count query, nil here *)
              (None, None)
          | Some items =>
              match rows_err with
              | Some err => (None, Some err)
              | None =>
                  (Some (mkUserListResponse
                           (mkListArgs (la_Size (lp_ListArgs p))
                                       (la_Page (lp_ListArgs p))
                                       (la_Direction (lp_ListArgs p))
                                       (la_OrderBy (lp_ListArgs p))
                                       (la_Deleted (lp_ListArgs p)))
                           total items),
                   None)
              end
          end
      end
  end.

(** *** The row a sign-up inserts

    [SignUp] written out for reference in the properties: the e-mail and
    username it settles on and the row it hands to [INSERT]. *)

Definition signup_email (e : Env) (p : SignUpParams) : string :=
  if su_Passive p && String.eqb (su_Email p) ""
  then rand_uuid e 0%nat ++ "@passive-user.gus"
  else su_Email p.

Definition signup_username (us : Users) (e : Env) (p : SignUpParams)
  : string :=
  if us_UsernameIsEmail us || String.eqb (su_Username p) ""
  then signup_email e p else su_Username p.

Definition signup_password (us : Users) (e : Env) (p : SignUpParams)
  : string :=
  if negb (String.eqb (su_Password p) "") then su_Password p
  else us_PassGen us 128 (rand_seed e 0%nat).

Definition signup_row (us : Users) (e : Env) (db : DB) (p : SignUpParams)
  (hash : string) : UserRow :=
  mkUserRow (next_user_id db) (rand_uuid e 1%nat) (signup_username us e p)
            (signup_email e p) (su_FirstName p) (su_LastName p) (su_Phone p)
            hash (su_OrgId p) (Milliseconds (now e)) (Milliseconds (now e))
            0 (su_Role p) 0 (su_InviteCode p) (Some (su_Passive p)).

(** Successive sign-ins with the same parameters, one per clock reading,
    each on the store the previous one left: whether each was let through
    the rate limiter ([None] when it was rate limited, otherwise whether
    it authenticated). *)
Fixpoint signin_run (us : Users) (db : DB) (p : SignInParams)
  (times : list Z) : list (option bool) :=
  match times with
  | [] => []
  | t :: rest =>
      let '(r, db1) := SignIn us (demo_env t "run") db p in
      (match r with
       | Err (RateLimitExceededError _) => None
       | Ok _ => Some true
       | Err _ => Some false
       end) :: signin_run us db1 p rest
  end.

(** ** Properties *)

(** *** Arithmetic and list facts *)

Lemma wrap_in_range (z : Z) : Int64.in_range z -> Int64.wrap z = z.
Proof.
  unfold Int64.in_range, Int64.min_int, Int64.max_int, Int64.wrap.
  intros H. rewrite Z.mod_small; lia.
Qed.

Lemma window_start_exact (us : Users) (t : Z) :
  Int64.in_range (Unix t - us_AuthLockDuration us) ->
  Int64.in_range ((Unix t - us_AuthLockDuration us) * 1000) ->
  window_start us t = (Unix t - us_AuthLockDuration us) * 1000.
Proof.
  intros H1 H2. unfold window_start, Int64.mul, Int64.sub.
  rewrite (wrap_in_range _ H1). apply wrap_in_range, H2.
Qed.

Lemma count_attempts_insert (db : DB) (since : Z) (username who : string)
  (created : Z) :
  count_attempts (insert_attempt db who created) since username =
  count_attempts db since username
  + (if in_window since username (mkAttemptRow who created) then 1 else 0).
Proof.
  unfold count_attempts, insert_attempt. simpl.
  rewrite filter_app, length_app. simpl.
  destruct (in_window since username (mkAttemptRow who created)); simpl; lia.
Qed.

Lemma count_attempts_nonneg (db : DB) (since : Z) (username : string) :
  0 <= count_attempts db since username.
Proof. unfold count_attempts. lia. Qed.

(** *** The rate limiter *)

Lemma isLocked_healthy (us : Users) (e : Env) (db : DB) (username : string) :
  fault e AttemptPrepare = false ->
  fault e AttemptExec = false ->
  fault e AttemptCount = false ->
  isLocked us e db username =
  (count_attempts (insert_attempt db username (now e))
                  (window_start us (now e)) username >? us_AuthAttempts us,
   insert_attempt db username (now e)).
Proof.
  intros H1 H2 H3. unfold isLocked. rewrite H1, H2, H3. reflexivity.
Qed.

Lemma isLocked_fail_closed (us : Users) (e : Env) (db : DB)
  (username : string) :
  fault e AttemptPrepare = true \/ fault e AttemptExec = true
  \/ fault e AttemptCount = true ->
  fst (isLocked us e db username) = true.
Proof.
  intros H. unfold isLocked.
  destruct (fault e AttemptPrepare); [reflexivity|].
  destruct (fault e AttemptExec); [reflexivity|].
  destruct (fault e AttemptCount); [reflexivity|].
  destruct H as [H | [H | H]]; discriminate.
Qed.

(** The rate limiter leaves the accounts and organizations alone. *)
Lemma isLocked_users (us : Users) (e : Env) (db : DB) (username : string) :
  users (snd (isLocked us e db username)) = users db
  /\ orgs (snd (isLocked us e db username)) = orgs db
  /\ password_resets (snd (isLocked us e db username)) = password_resets db.
Proof.
  unfold isLocked.
  destruct (fault e AttemptPrepare); [now simpl|].
  destruct (fault e AttemptExec); [now simpl|].
  destruct (fault e AttemptCount); now simpl.
Qed.

Lemma SignIn_unfold (us : Users) (e : Env) (db : DB) (p : SignInParams) :
  SignIn us e db p =
  if fst (isLocked us e db (signin_identifier us p))
  then (Err ErrRateLimit, snd (isLocked us e db (signin_identifier us p)))
  else authenticate us e (snd (isLocked us e db (signin_identifier us p)))
                    (signin_identifier us p) (si_Password p).
Proof.
  unfold SignIn.
  destruct (isLocked us e db (signin_identifier us p)) as [locked db1].
  reflexivity.
Qed.



(** C2. Fail-closed rate limiting.  If preparing or executing the insert
    of the attempt record fails, or reading the count fails, the
    identifier is treated as locked and sign-in returns RateLimitExceeded,
    not a store error. *)
Theorem signin_fail_closed (us : Users) (e : Env) (db : DB)
  (p : SignInParams) :
  fault e AttemptPrepare = true \/ fault e AttemptExec = true
  \/ fault e AttemptCount = true ->
  fst (isLocked us e db (signin_identifier us p)) = true
  /\ fst (SignIn us e db p) = Err ErrRateLimit.
Proof.
  intros H.
  pose proof (isLocked_fail_closed us e db (signin_identifier us p) H) as HL.
  split; [exact HL|]. rewrite SignIn_unfold, HL. reflexivity.
Qed.

Lemma NewUsers_lock_positive (opt : UserOpts) :
  0 <= AuthLockDuration opt ->
  1 <= us_AuthLockDuration (NewUsers opt)
  /\ (AuthLockDuration opt * 1000 <= 2 ^ 63 ->
      us_AuthLockDuration (NewUsers opt) * 1000 <= 2 ^ 63).
Proof.
  intros H. unfold NewUsers. simpl.
  destruct (AuthLockDuration opt =? 0) eqn:E.
  - change (Int64.mul 5 60) with 300. lia.
  - apply Z.eqb_neq in E. lia.
Qed.

(** The attempt a call has just recorded lies inside its own window. *)
Lemma own_attempt_in_window (us : Users) (t : Z) (username : string) :
  sql_eq username username = true ->
  0 <= t <= Int64.max_int ->
  1 <= us_AuthLockDuration us ->
  us_AuthLockDuration us * 1000 <= 2 ^ 63 ->
  in_window (window_start us t) username (mkAttemptRow username t) = true.
Proof.
  intros Hrefl Ht HD1 HD2. unfold in_window. simpl. rewrite Hrefl.
  rewrite andb_true_r.
  unfold Int64.max_int in Ht.
  assert (Hq : 0 <= t / 1000 /\ 1000 * (t / 1000) <= t).
  { split; [apply Z.div_pos; lia | apply Z.mul_div_le; lia]. }
  rewrite window_start_exact;
    unfold Int64.in_range, Int64.min_int, Int64.max_int, Unix;
    [apply Z.gtb_lt; lia | lia | lia].
Qed.

(** The count a sign-in takes is the number of earlier attempts still in
    the window plus one, its own: an attempt is let through when fewer
    than [N] earlier ones remain. *)
Lemma count_includes_own_attempt (us : Users) (e : Env) (db : DB)
  (username : string) :
  sql_eq username username = true ->
  0 <= now e <= Int64.max_int ->
  1 <= us_AuthLockDuration us ->
  us_AuthLockDuration us * 1000 <= 2 ^ 63 ->
  count_attempts (insert_attempt db username (now e))
                 (window_start us (now e)) username
  = count_attempts db (window_start us (now e)) username + 1.
Proof.
  intros Hrefl Ht HD1 HD2. rewrite count_attempts_insert.
  rewrite (own_attempt_in_window us (now e) username Hrefl Ht HD1 HD2).
  reflexivity.
Qed.

(** Attempts at or before the start of the window no longer count. *)
Lemma aged_attempts_not_counted (db : DB) (since : Z) (username : string) :
  (forall a, In a (password_attempts db) ->
             sql_eq (pa_username a) username = true -> pa_created a <= since) ->
  count_attempts db since username = 0.
Proof.
  intros Hold. unfold count_attempts.
  induction (password_attempts db) as [|a l IH]; [reflexivity|].
  simpl. unfold in_window at 1.
  destruct (sql_eq (pa_username a) username) eqn:E.
  - assert (Ha : pa_created a <= since) by (apply Hold; [left; reflexivity | exact E]).
    destruct (pa_created a >? since) eqn:G.
    + apply Z.gtb_lt in G. lia.
    + simpl. apply IH. intros b Hb. apply Hold. right. exact Hb.
  - rewrite andb_false_r. apply IH. intros b Hb. apply Hold. right. exact Hb.
Qed.

(** C10. Zero-valued attempts limit locks out everyone.  [NewUsers] fills
    in the lock duration, the token expiry, the generator and the username
    policy when they are left at their zero value, and leaves the attempts
    limit as it is; with that limit at zero (and a lock duration that is a
    non-negative number of seconds whose milliseconds fit an [int64], a
    clock past the epoch, and a collation under which a string equals
    itself), every sign-in, for every store, identifier, password and
    pattern of store failures, returns RateLimitExceeded. *)
Theorem zero_attempts_locks_everyone (opt : UserOpts) (e : Env) (db : DB)
  (p : SignInParams) :
  (forall s, sql_eq s s = true) ->
  AuthAttempts opt = 0 ->
  0 <= AuthLockDuration opt ->
  AuthLockDuration opt * 1000 <= 2 ^ 63 ->
  0 <= now e <= Int64.max_int ->
  NewUsers (mkUserOpts 0 0 None None 0) =
    mkUsers 0 300 RandStringBytesMaskImprSrc true 86400000
  /\ us_AuthAttempts (NewUsers opt) = 0
  /\ fst (SignIn (NewUsers opt) e db p) = Err ErrRateLimit.
Proof.
  intros Hrefl HN HD0 HD1 Ht.
  split; [reflexivity|]. split; [exact HN|].
  rewrite SignIn_unfold.
  set (us := NewUsers opt). set (id := signin_identifier us p).
  assert (HL : fst (isLocked us e db id) = true).
  { destruct (fault e AttemptPrepare) eqn:F1;
      [apply isLocked_fail_closed; auto|].
    destruct (fault e AttemptExec) eqn:F2;
      [apply isLocked_fail_closed; auto|].
    destruct (fault e AttemptCount) eqn:F3;
      [apply isLocked_fail_closed; auto|].
    rewrite (isLocked_healthy us e db id F1 F2 F3). simpl.
    rewrite count_attempts_insert.
    destruct (NewUsers_lock_positive opt HD0) as [L1 L2].
    rewrite (own_attempt_in_window us (now e) id (Hrefl id) Ht L1 (L2 HD1)).
    change (us_AuthAttempts us) with (AuthAttempts opt). rewrite HN.
    apply Z.gtb_lt.
    pose proof (count_attempts_nonneg db (window_start us (now e)) id). lia. }
  rewrite HL. reflexivity.
Qed.

(** *** Sign-in gates *)

Lemma lookup_query_isLocked (us : Users) (e : Env) (db : DB)
  (who username : string) :
  lookup_query (snd (isLocked us e db who)) username = lookup_query db username.
Proof.
  destruct (isLocked_users us e db who) as (Hu & Ho & _).
  unfold lookup_query, left_join_orgs. rewrite Hu, Ho. reflexivity.
Qed.

Lemma scan_claims_flagged (r : UserRow * option OrgRow) :
  u_passive (fst r) = Some true \/ u_suspended (fst r) > 0
  \/ (exists o, snd r = Some o /\ o_suspended o = true) ->
  Suspended (uwc_User (scan_claims r))
  || OrgSuspended (uwc_Claims (scan_claims r))
  || Passive (uwc_User (scan_claims r)) = true.
Proof.
  intros [H | [H | (o & Ho & Hs)]]; unfold scan_claims; simpl.
  - rewrite H. apply orb_true_r.
  - apply Z.gt_lt, Z.gtb_lt in H. rewrite H. reflexivity.
  - rewrite Ho, Hs. rewrite orb_true_r. reflexivity.
Qed.

(** C4. Passive accounts never authenticate.  When the sign-in lookup
    resolves the identifier to an account row that is passive, or
    suspended, or whose organization is suspended, sign-in never returns
    an account, whatever the password, the store failures or the lock
    state; and whenever the attempt is not rate limited and the lookup is
    answered, the error is the generic NotAuthenticated. *)
Theorem flagged_account_never_signs_in (us : Users) (e : Env) (db : DB)
  (p : SignInParams) (r : UserRow * option OrgRow) :
  lookup_query db (signin_identifier us p) = Some r ->
  u_passive (fst r) = Some true \/ u_suspended (fst r) > 0
  \/ (exists o, snd r = Some o /\ o_suspended o = true) ->
  (forall u, fst (SignIn us e db p) <> Ok u)
  /\ (fst (isLocked us e db (signin_identifier us p)) = false ->
      fault e LookupPrepare = false ->
      fault e LookupScan = false ->
      fst (SignIn us e db p) = Err ErrNotAuth).
Proof.
  intros Hq Hflag. rewrite SignIn_unfold.
  set (id := signin_identifier us p) in *.
  pose proof (lookup_query_isLocked us e db id id) as Hq1.
  rewrite Hq in Hq1.
  pose proof (scan_claims_flagged r Hflag) as Hgate.
  destruct (fst (isLocked us e db id)).
  - split; [intros u; simpl; discriminate | discriminate].
  - unfold authenticate, GetByUsername.
    destruct (fault e LookupPrepare).
    { split; [intros u; simpl; discriminate | discriminate]. }
    destruct (fault e LookupScan).
    { split; [intros u; simpl; discriminate | discriminate]. }
    rewrite Hq1, Hgate.
    destruct (isLocked us e (snd (isLocked us e db id)) id) as [l db2].
    split; [intros u; simpl; discriminate | reflexivity].
Qed.

(** *** Reset tokens *)

Lemma expires_at_exact (us : Users) (created : Z) :
  Int64.in_range (us_ResetTokenExpiry us * 1000) ->
  Int64.in_range (created + us_ResetTokenExpiry us * 1000) ->
  expires_at us created = created + us_ResetTokenExpiry us * 1000.
Proof.
  intros H1 H2. unfold expires_at, Int64.add, Int64.mul.
  rewrite (wrap_in_range _ H1). apply wrap_in_range, H2.
Qed.

Lemma String_eqb_neq_false (a b : string) : a <> b -> String.eqb a b = false.
Proof. intros H. apply String.eqb_neq, H. Qed.


(** Issuing a token leaves, under the e-mail of the request, no live
    token but the new one, and the new one only if it was stored under
    that e-mail: the account's e-mail is what the row records. *)
Lemma revoke_resets_no_live (db : DB) (email : string) :
  filter (live_reset email) (password_resets (revoke_resets db email)) = [].
Proof.
  unfold revoke_resets. simpl.
  induction (password_resets db) as [|r l IH]; [reflexivity|].
  simpl. destruct (sql_eq (pr_email r) email) eqn:E.
  - unfold live_reset at 1. simpl. rewrite E. simpl. exact IH.
  - unfold live_reset at 1. rewrite E. simpl. exact IH.
Qed.

Lemma ResetPassword_live_tokens (us : Users) (e : Env) (db : DB)
  (p : ResetPasswordParams) (r : UserRow * option OrgRow) :
  (forall s, fault e s = false) ->
  lookup_query db (rp_Email p) = Some r ->
  u_passive (fst r) <> Some true ->
  let token := us_PassGen us 128 (rand_seed e 0%nat) in
  let row := mkResetRow (u_id (fst r)) (u_email (fst r)) token (now e) 0 in
  fst (ResetPassword us e db p) = Ok token
  /\ password_resets (snd (ResetPassword us e db p))
     = (password_resets (revoke_resets db (rp_Email p)) ++ [row])%list
  /\ filter (live_reset (rp_Email p))
            (password_resets (snd (ResetPassword us e db p)))
     = if sql_eq (u_email (fst r)) (rp_Email p) then [row] else [].
Proof.
  intros Hf Hq Hp token row.
  assert (HR : ResetPassword us e db p =
               (Ok token, insert_reset (revoke_resets db (rp_Email p)) row)).
  { unfold ResetPassword, GetByUsername. rewrite !Hf, Hq.
    assert (Hpass : Passive (uwc_User (scan_claims r)) = false).
    { unfold scan_claims. simpl. destruct (u_passive (fst r)) as [[|]|];
        [exfalso; apply Hp; reflexivity | reflexivity | reflexivity]. }
    rewrite Hpass. unfold Tx. rewrite ?Hf. reflexivity. }
  rewrite HR. split; [reflexivity|]. split; [reflexivity|].
  change (password_resets
            (snd (Ok token, insert_reset (revoke_resets db (rp_Email p)) row)))
    with (password_resets (revoke_resets db (rp_Email p)) ++ [row])%list.
  rewrite filter_app, revoke_resets_no_live. simpl.
  unfold live_reset. simpl. rewrite andb_true_r.
  destruct (sql_eq (u_email (fst r)) (rp_Email p)); reflexivity.
Qed.

(** In the lookup of sign-in the deleted flag guards the username branch
    only: a row whose e-mail matches is selected whatever its flag. *)
Lemma lookup_where_email_branch (username : string)
  (r : UserRow * option OrgRow) :
  sql_eq (u_email (fst r)) username = true ->
  lookup_where username r = true.
Proof. intros H. unfold lookup_where. rewrite H. reflexivity. Qed.

Lemma lookup_where_username_branch (username : string)
  (r : UserRow * option OrgRow) :
  sql_eq (u_email (fst r)) username = false ->
  lookup_where username r
  = sql_eq (u_username (fst r)) username && (u_deleted (fst r) =? 0).
Proof. intros H. unfold lookup_where. rewrite H. reflexivity. Qed.

(** *** Sign-up *)

(** Under a case-insensitive collation the existence check refuses a
    request whose e-mail, or whose username as sent, is that of a live
    account. *)
Lemma exists_rejects_taken (e : Env) (db : DB) (p : ExistsParams)
  (u : UserRow) :
  (forall a b, sql_eq a b = String.eqb (ToLower a) (ToLower b)) ->
  fault e ExistsPrepare = false ->
  fault e ExistsScan = false ->
  In u (users db) ->
  u_deleted u = 0 ->
  ToLower (u_email u) = ToLower (ex_Email p)
  \/ ToLower (u_username u) = ToLower (ex_Username p) ->
  exists_ e db p = Err ErrEmailTaken \/ exists_ e db p = Err ErrUsernameTaken.
Proof.
  intros Hci F1 F2 Hin Hdel Hmatch. unfold exists_. rewrite F1, F2.
  destruct (find (exists_where p) (users db)) as [u'|] eqn:Hfind.
  - apply find_some in Hfind. destruct Hfind as [_ Hw].
    unfold exists_where in Hw. rewrite !Hci in Hw.
    destruct (String.eqb (ToLower (u_email u')) (ToLower (ex_Email p)));
      [left; reflexivity|].
    rewrite orb_false_r in Hw. apply andb_true_iff in Hw.
    destruct Hw as [_ Hw]. rewrite Hw. right; reflexivity.
  - exfalso. pose proof (find_none _ _ Hfind u Hin) as Hn.
    unfold exists_where in Hn. rewrite !Hci, Hdel in Hn. simpl in Hn.
    destruct Hmatch as [H | H]; rewrite H, String.eqb_refl in Hn;
      [rewrite orb_true_r in Hn | ]; discriminate.
Qed.

Lemma SignUp_rejects_taken (us : Users) (e : Env) (db : DB)
  (p : SignUpParams) (u : UserRow) :
  (forall a b, sql_eq a b = String.eqb (ToLower a) (ToLower b)) ->
  fault e ExistsPrepare = false ->
  fault e ExistsScan = false ->
  su_Email p <> "" ->
  In u (users db) ->
  u_deleted u = 0 ->
  ToLower (u_email u) = ToLower (su_Email p)
  \/ ToLower (u_username u) = ToLower (su_Username p) ->
  SignUp us e db p = (Err ErrEmailTaken, db)
  \/ SignUp us e db p = (Err ErrUsernameTaken, db).
Proof.
  intros Hci F1 F2 Hne Hin Hdel Hmatch. unfold SignUp, Tx.
  rewrite (String_eqb_neq_false _ _ Hne), andb_false_r.
  destruct (exists_rejects_taken e db
              (mkExistsParams (su_Email p) (su_Username p)) u
              Hci F1 F2 Hin Hdel Hmatch) as [H | H];
    rewrite H; [left | right]; reflexivity.
Qed.

(** A passive account signed up without a password gets a generated one
    that is not returned, and no activation token. *)
Lemma SignUp_passive_returns_no_secret (us : Users) (e : Env) (db : DB)
  (p : SignUpParams) (u : User) (token : string) :
  su_Passive p = true ->
  su_Password p = "" ->
  fst (SignUp us e db p) = Ok (u, token) ->
  token = "" /\ Passive u = true.
Proof.
  intros Hp Hpw. unfold SignUp, Tx. rewrite Hp, Hpw. simpl.
  destruct (exists_ e db _); [|simpl; discriminate].
  destruct (fault e SignUpPrepare); [simpl; discriminate|].
  destruct (hashPassword e _); [|simpl; discriminate].
  destruct (fault e SignUpExec); [simpl; discriminate|].
  destruct (fault e SignUpLastInsertId); [simpl; discriminate|].
  simpl. intros H. inversion H. split; reflexivity.
Qed.

(** Sign-in writes to the attempt log only. *)
Lemma SignIn_users (us : Users) (e : Env) (db : DB) (p : SignInParams) :
  users (snd (SignIn us e db p)) = users db.
Proof.
  rewrite SignIn_unfold.
  set (id := signin_identifier us p).
  destruct (isLocked_users us e db id) as (Hu & _).
  destruct (fst (isLocked us e db id)); [simpl; exact Hu|].
  unfold authenticate.
  destruct (GetByUsername e (snd (isLocked us e db id)) id)
    as [[u hash]|err].
  - destruct (Suspended (uwc_User u) || OrgSuspended (uwc_Claims u)
              || Passive (uwc_User u)).
    + destruct (isLocked_users us e (snd (isLocked us e db id)) id)
        as (Hu2 & _).
      destruct (isLocked us e (snd (isLocked us e db id)) id) as [l db2].
      simpl in *. congruence.
    + destruct (bcrypt_CompareHashAndPassword hash (si_Password p));
        simpl; exact Hu.
  - destruct err; simpl; exact Hu.
Qed.

(** When the final update fails, change-password leaves every account
    row as it was, whichever path proved ownership; the only error it can
    still report is one raised before that update. *)
Lemma ChangePassword_failed_update_keeps_users (us : Users) (e : Env)
  (db : DB) (p : ChangePasswordParams) :
  fault e ChangeUpdateExec = true ->
  users (snd (ChangePassword us e db p)) = users db.
Proof.
  intros HF. unfold ChangePassword.
  destruct (negb (String.eqb (cp_ExistingPassword p) "")).
  - pose proof (SignIn_users us e db
                  (mkSignInParams "" (cp_Email p) (cp_ExistingPassword p) None))
      as Hu.
    destruct (SignIn us e db _) as [[u|err] db1]; simpl in Hu;
      [|simpl; exact Hu].
    destruct (hashPassword e (cp_NewPassword p)); [|simpl; exact Hu].
    destruct (fault e ChangeUpdatePrepare); [simpl; exact Hu|].
    rewrite HF. simpl. exact Hu.
  - destruct (negb (String.eqb (cp_ResetToken p) "")); [|reflexivity].
    unfold Tx, consume_token.
    destruct (fault e ChangeSelect); [reflexivity|].
    destruct (latest_reset db (cp_Email p)) as [r|]; [|reflexivity].
    destruct (negb (String.eqb (pr_reset_token r) (cp_ResetToken p)));
      [reflexivity|].
    destruct (Milliseconds (now e) >? expires_at us (pr_created r));
      [reflexivity|].
    destruct (fault e ChangeRevoke); [reflexivity|].
    destruct (hashPassword e (cp_NewPassword p)); [|reflexivity].
    destruct (fault e ChangeUpdatePrepare); [reflexivity|].
    rewrite HF. reflexivity.
Qed.

(** *** Password strength *)

Lemma contains_class_spec (f : ascii -> bool) (s : string) :
  contains_class f s = true <-> has_class f s.
Proof.
  unfold has_class. induction s as [|c s IH]; simpl.
  - split; [discriminate | intros (c & [] & _)].
  - rewrite orb_true_iff, IH. split.
    + intros [H | (c' & Hin & Hc)]; [exists c; auto | exists c'; auto].
    + intros (c' & [Heq | Hin] & Hc);
        [subst; auto | right; exists c'; auto].
Qed.

Lemma ValidatePassword_spec (s : string) :
  ValidatePassword s = true <-> spec_strength_rule s.
Proof using Type.
  unfold ValidatePassword, spec_strength_rule.
  rewrite orb_true_iff, !andb_true_iff, !contains_class_spec,
    !Nat.leb_le.
  split.
  - intros [((((U & L) & D) & S) & N) | N];
      [left; repeat split; assumption | right; exact N].
  - intros [(U & L & D & S & N) | N];
      [left; repeat split; assumption | right; exact N].
Qed.

(** C7 (as amended). New-password strength rule of the default validator.
    For change-password parameters without a custom validator, [Validate]
    accepts only if the new password has an upper-case letter, a
    lower-case letter, a digit and a special character and length at
    least 8, or has length at least 15; and a non-empty new password that
    does not meet the rule is rejected with PasswordInvalid once the
    e-mail and the proof of ownership have passed their checks. *)
Theorem validate_new_password_strength (va : ChangePasswordParams) :
  cp_CustomValidator va = None ->
  (ChangePasswordParams_Validate va = None ->
   spec_strength_rule (cp_NewPassword va))
  /\ (~ spec_strength_rule (cp_NewPassword va) ->
      cp_Email va <> "" ->
      govalidator_IsEmail (cp_Email va) = true ->
      cp_ExistingPassword va <> "" \/ cp_ResetToken va <> "" ->
      cp_NewPassword va <> "" ->
      ChangePasswordParams_Validate va = Some ErrPasswordInvalid).
Proof.
  intros Hcv. unfold ChangePasswordParams_Validate. rewrite Hcv. split.
  - destruct (IsNull (cp_Email va)); [discriminate|].
    destruct (govalidator_IsEmail (cp_Email va)); [|discriminate]. simpl.
    destruct (IsNull (cp_ExistingPassword va) && IsNull (cp_ResetToken va));
      [discriminate|].
    destruct (IsNull (cp_NewPassword va)); [discriminate|].
    destruct (ValidatePassword (cp_NewPassword va)) eqn:E; [|discriminate].
    intros _. apply ValidatePassword_spec, E.
  - intros Hweak He Hie Hproof Hpw. unfold IsNull.
    rewrite (String_eqb_neq_false _ _ He), Hie. simpl.
    assert (Hp : String.eqb (cp_ExistingPassword va) ""
                 && String.eqb (cp_ResetToken va) "" = false).
    { destruct Hproof as [H | H]; rewrite (String_eqb_neq_false _ _ H);
        [reflexivity | apply andb_false_r]. }
    rewrite Hp, (String_eqb_neq_false _ _ Hpw).
    destruct (ValidatePassword (cp_NewPassword va)) eqn:E; [|reflexivity].
    exfalso. apply Hweak, ValidatePassword_spec, E.
Qed.

(** ** Further properties of the engine *)

(** *** Sign-in *)

Lemma isLocked_appends (us : Users) (e : Env) (db : DB) (username : string) :
  exists k, (k <= 1)%nat
    /\ password_attempts (snd (isLocked us e db username))
       = (password_attempts db
          ++ repeat (mkAttemptRow username (now e)) k)%list.
Proof.
  unfold isLocked.
  destruct (fault e AttemptPrepare);
    [exists 0%nat; simpl; rewrite app_nil_r; auto|].
  destruct (fault e AttemptExec);
    [exists 0%nat; simpl; rewrite app_nil_r; auto|].
  destruct (fault e AttemptCount); exists 1%nat; simpl; auto.
Qed.

Lemma authenticate_appends (us : Users) (e : Env) (db1 : DB)
  (username password : string) :
  exists k, (k <= 1)%nat
    /\ password_attempts (snd (authenticate us e db1 username password))
       = (password_attempts db1
          ++ repeat (mkAttemptRow username (now e)) k)%list.
Proof.
  unfold authenticate.
  destruct (GetByUsername e db1 username) as [[u hash]|err].
  - destruct (Suspended (uwc_User u) || OrgSuspended (uwc_Claims u)
              || Passive (uwc_User u)).
    + destruct (isLocked_appends us e db1 username) as (k & Hk & Hl).
      destruct (isLocked us e db1 username) as [l db2]. simpl in *.
      exists k. auto.
    + exists 0%nat.
      destruct (bcrypt_CompareHashAndPassword hash password);
        simpl; rewrite app_nil_r; auto.
  - exists 0%nat. destruct err; simpl; rewrite app_nil_r; auto.
Qed.

(** X1. Sign-in writes to the attempt log only, and only by appending:
    accounts, organizations and reset tokens are left as they were, and
    the log grows by at most two records, each for the identifier of
    the request at the clock reading of the call. *)
Theorem SignIn_only_appends_attempts (us : Users) (e : Env) (db : DB)
  (p : SignInParams) :
  users (snd (SignIn us e db p)) = users db
  /\ orgs (snd (SignIn us e db p)) = orgs db
  /\ password_resets (snd (SignIn us e db p)) = password_resets db
  /\ exists k, (k <= 2)%nat
       /\ password_attempts (snd (SignIn us e db p))
          = (password_attempts db
             ++ repeat (mkAttemptRow (signin_identifier us p) (now e)) k)%list.
Proof.
  split; [apply SignIn_users|].
  rewrite SignIn_unfold. set (id := signin_identifier us p).
  destruct (isLocked_users us e db id) as (_ & Ho & Hr).
  destruct (isLocked_appends us e db id) as (k1 & Hk1 & Hl1).
  destruct (fst (isLocked us e db id)).
  - simpl. repeat split; auto. exists k1. split; [lia | exact Hl1].
  - destruct (authenticate_appends us e (snd (isLocked us e db id)) id
                (si_Password p)) as (k2 & Hk2 & Hl2).
    assert (Hrest :
      orgs (snd (authenticate us e (snd (isLocked us e db id)) id
                   (si_Password p))) = orgs db
      /\ password_resets
           (snd (authenticate us e (snd (isLocked us e db id)) id
                   (si_Password p))) = password_resets db).
    { unfold authenticate.
      destruct (GetByUsername e (snd (isLocked us e db id)) id)
        as [[u hash]|err].
      - destruct (Suspended (uwc_User u) || OrgSuspended (uwc_Claims u)
                  || Passive (uwc_User u)).
        + destruct (isLocked_users us e (snd (isLocked us e db id)) id)
            as (_ & Ho2 & Hr2).
          destruct (isLocked us e (snd (isLocked us e db id)) id) as [l db2].
          simpl in *. split; congruence.
        + destruct (bcrypt_CompareHashAndPassword hash (si_Password p));
            simpl; auto.
      - destruct err; simpl; auto. }
    destruct Hrest as [Ho3 Hr3]. repeat split; auto.
    exists (k1 + k2)%nat. split; [lia|].
    rewrite Hl2, Hl1, repeat_app, app_assoc. reflexivity.
Qed.

(** X2. What sign-in can answer when the store is healthy: an account,
    exactly when the attempt is within the limit, the lookup finds a row
    that is neither suspended, nor of a suspended organization, nor
    passive, and the digest verifies the password; RateLimitExceeded,
    exactly when the count exceeds the limit; and otherwise
    NotAuthenticated, never another error. *)
Theorem SignIn_outcomes (us : Users) (e : Env) (db : DB) (p : SignInParams) :
  (forall s, fault e s = false) ->
  let id := signin_identifier us p in
  let locked :=
    count_attempts (insert_attempt db id (now e)) (window_start us (now e)) id
    >? us_AuthAttempts us in
  (forall u,
     fst (SignIn us e db p) = Ok u <->
     locked = false
     /\ exists r,
          lookup_query db id = Some r /\ u = scan_claims r
          /\ Suspended (uwc_User u) = false
          /\ OrgSuspended (uwc_Claims u) = false
          /\ Passive (uwc_User u) = false
          /\ bcrypt_CompareHashAndPassword (u_password_hash (fst r))
               (si_Password p) = true)
  /\ (fst (SignIn us e db p) = Err ErrRateLimit <-> locked = true)
  /\ (forall err,
        fst (SignIn us e db p) = Err err ->
        err = ErrRateLimit \/ err = ErrNotAuth).
Proof.
  intros Hf id locked.
  rewrite SignIn_unfold. fold id.
  rewrite (isLocked_healthy us e db id (Hf _) (Hf _) (Hf _)).
  cbn [fst snd]. fold locked.
  destruct locked.
  { split; [|split].
    - intros u. split; [discriminate | intros [H _]; discriminate].
    - split; reflexivity.
    - intros err H. inversion H. left; reflexivity. }
  unfold authenticate, GetByUsername. rewrite !Hf.
  change (lookup_query (insert_attempt db id (now e)) id)
    with (lookup_query db id).
  destruct (lookup_query db id) as [r|].
  2:{ split; [|split].
      - intros u. split; [discriminate|].
        intros (_ & r & Hr & _). discriminate.
      - split; discriminate.
      - intros err H. inversion H. right; reflexivity. }
  destruct (Suspended (uwc_User (scan_claims r))) eqn:Hs;
  destruct (OrgSuspended (uwc_Claims (scan_claims r))) eqn:Ho;
  destruct (Passive (uwc_User (scan_claims r))) eqn:Hp;
  cbn [orb];
  try (destruct (isLocked us e (insert_attempt db id (now e)) id) as [l db2];
       split; [|split];
       [ intros u; split; [discriminate|];
         intros (_ & r' & Hr & -> & H1 & H2 & H3 & _);
         inversion Hr; subst r'; congruence
       | split; discriminate
       | intros err H; inversion H; right; reflexivity ]).
  destruct (bcrypt_CompareHashAndPassword (u_password_hash (fst r))
              (si_Password p)) eqn:Hc; cbn [fst]; (split; [|split]).
  - intros u. split.
    + intros H. inversion H. split; [reflexivity|].
      exists r. repeat split; auto.
    + intros (_ & r' & Hr & -> & _). inversion Hr. reflexivity.
  - split; discriminate.
  - intros err H. discriminate.
  - intros u. split; [discriminate|].
    intros (_ & r' & Hr & -> & _ & _ & _ & Hc'). inversion Hr; subst r'.
    congruence.
  - split; discriminate.
  - intros err H. inversion H. right; reflexivity.
Qed.

(** X3. A sign-in that finds a suspended, organization-suspended or
    passive account records two attempts, not one: the lock check runs a
    second time on that path. *)
Theorem flagged_signin_records_two_attempts (us : Users) (e : Env) (db : DB)
  (p : SignInParams) (r : UserRow * option OrgRow) :
  (forall s, fault e s = false) ->
  fst (isLocked us e db (signin_identifier us p)) = false ->
  lookup_query db (signin_identifier us p) = Some r ->
  u_passive (fst r) = Some true \/ u_suspended (fst r) > 0
  \/ (exists o, snd r = Some o /\ o_suspended o = true) ->
  password_attempts (snd (SignIn us e db p))
  = (password_attempts db
     ++ [mkAttemptRow (signin_identifier us p) (now e);
         mkAttemptRow (signin_identifier us p) (now e)])%list.
Proof.
  intros Hf Hl Hq Hflag. rewrite SignIn_unfold, Hl.
  set (id := signin_identifier us p) in *.
  rewrite (isLocked_healthy us e db id (Hf _) (Hf _) (Hf _)). cbn [snd].
  unfold authenticate, GetByUsername. rewrite !Hf.
  change (lookup_query (insert_attempt db id (now e)) id)
    with (lookup_query db id).
  rewrite Hq, (scan_claims_flagged r Hflag).
  rewrite (isLocked_healthy us e _ id (Hf _) (Hf _) (Hf _)).
  cbn [snd]. unfold insert_attempt. simpl. rewrite <- app_assoc. reflexivity.
Qed.

(** *** Sign-up *)

Lemma ResetPassword_users (us : Users) (e : Env) (db : DB)
  (p : ResetPasswordParams) :
  users (snd (ResetPassword us e db p)) = users db
  /\ orgs (snd (ResetPassword us e db p)) = orgs db.
Proof.
  unfold ResetPassword.
  destruct (GetByUsername e db (rp_Email p)) as [[u hash]|err]; [|auto].
  destruct (Passive (uwc_User u)); [auto|].
  unfold Tx.
  destruct (fault e ResetRevoke); [auto|].
  destruct (fault e ResetPrepare); [auto|].
  destruct (fault e ResetExec); auto.
Qed.

(** A successful sign-up has passed the existence check, hashed the
    password, and appended [signup_row]; the account it returns is that
    row as [Get] scans it. *)
Lemma SignUp_success_inv (us : Users) (e : Env) (db : DB) (p : SignUpParams)
  (u : User) (token : string) :
  fst (SignUp us e db p) = Ok (u, token) ->
  exists hash,
    bcrypt_GenerateFromPassword (signup_password us e p) 12 (rand_salt e)
    = Some hash
    /\ (exists b,
          exists_ e db (mkExistsParams (signup_email e p) (su_Username p))
          = Ok b)
    /\ users (snd (SignUp us e db p))
       = (users db ++ [signup_row us e db p hash])%list
    /\ orgs (snd (SignUp us e db p)) = orgs db
    /\ u = scan_user (signup_row us e db p hash).
Proof.
  unfold SignUp, Tx. fold (signup_email e p).
  destruct (exists_ e db (mkExistsParams (signup_email e p) (su_Username p)))
    as [b|err] eqn:Hex; [|simpl; discriminate].
  destruct (fault e SignUpPrepare); [simpl; discriminate|].
  fold (signup_username us e p). fold (signup_password us e p).
  unfold hashPassword.
  destruct (bcrypt_GenerateFromPassword (signup_password us e p) 12
              (rand_salt e)) as [hash|] eqn:Hh; [|simpl; discriminate].
  destruct (fault e SignUpExec); [simpl; discriminate|].
  destruct (fault e SignUpLastInsertId); [simpl; discriminate|].
  cbn [Uid Username Email FirstName LastName Phone OrgId Updated Created
       UserRole Passive Suspended].
  fold (signup_row us e db p hash).
  destruct (negb (String.eqb (su_Password p) "")).
  - simpl. intros H. inversion H. exists hash.
    split; [reflexivity|]. split; [exists b; reflexivity|].
    split; [reflexivity|]. split; reflexivity.
  - destruct (negb (su_Passive p)) eqn:Hp.
    + pose proof (ResetPassword_users us (after_draw e)
                    (insert_user db (signup_row us e db p hash))
                    (mkResetPasswordParams (signup_email e p) None))
        as [Hu Ho].
      destruct (ResetPassword us (after_draw e)
                  (insert_user db (signup_row us e db p hash))
                  (mkResetPasswordParams (signup_email e p) None))
        as [[tok|err] db2]; [|simpl; discriminate].
      simpl in *. intros H. inversion H. exists hash.
      split; [reflexivity|]. split; [exists b; reflexivity|].
      split; [exact Hu|]. split; [exact Ho|].
      unfold scan_user, signup_row. simpl.
      apply negb_true_iff in Hp. rewrite Hp. reflexivity.
    + simpl. intros H. inversion H. exists hash.
      split; [reflexivity|]. split; [exists b; reflexivity|].
      split; [reflexivity|]. split; [reflexivity|].
      unfold scan_user, signup_row. simpl.
      apply negb_false_iff in Hp. rewrite Hp. reflexivity.
Qed.

Lemma next_user_id_fresh (db : DB) (u : UserRow) :
  In u (users db) -> u_id u < next_user_id db.
Proof.
  unfold next_user_id. induction (users db) as [|v l IH].
  - intros [].
  - cbn [map fold_right In].
    pose proof (Z.le_max_l (u_id v) (fold_right Z.max 0 (map u_id l))).
    pose proof (Z.le_max_r (u_id v) (fold_right Z.max 0 (map u_id l))).
    intros [-> | H1]; [lia|]. specialize (IH H1). lia.
Qed.

Lemma find_app_skip {A : Type} (f : A -> bool) (l1 l2 : list A) :
  (forall x, In x l1 -> f x = false) ->
  find f (l1 ++ l2) = find f l2.
Proof.
  induction l1 as [|a l IH]; intros H; simpl; [reflexivity|].
  rewrite (H a (or_introl eq_refl)). apply IH.
  intros x Hx. apply H. right. exact Hx.
Qed.

(** X4. Sign-up then [Get]: the account a successful sign-up returns is
    the one [Get] reads back under its id. *)
Theorem SignUp_then_Get (us : Users) (e : Env) (ea : AdminEnv) (db : DB)
  (p : SignUpParams) (u : User) (token : string) :
  fst (SignUp us e db p) = Ok (u, token) ->
  a_fault ea GetPrepare = None ->
  a_fault ea GetScan = None ->
  Get ea (snd (SignUp us e db p)) (Id u) = AOk u.
Proof.
  intros Hok F1 F2.
  destruct (SignUp_success_inv us e db p u token Hok)
    as (hash & _ & _ & Hu & _ & ->).
  unfold Get, scanUser. rewrite F1, F2, Hu.
  rewrite find_app_skip.
  - simpl. unfold live_with_id. simpl. rewrite Z.eqb_refl. reflexivity.
  - intros x Hx. unfold live_with_id. simpl.
    pose proof (next_user_id_fresh db x Hx) as Hlt.
    destruct (u_id x =? next_user_id db) eqn:E; [|reflexivity].
    apply Z.eqb_eq in E. lia.
Qed.

(** When the collation is no coarser than case folding, a request that
    passes the existence check has an e-mail no row of the store carries. *)
Lemma exists_ok_no_email_match (e : Env) (db : DB) (p : ExistsParams)
  (b : bool) :
  (forall x y, sql_eq x y = true -> ToLower x = ToLower y) ->
  exists_ e db p = Ok b ->
  forall v, In v (users db) -> exists_where p v = false.
Proof.
  intros Hsound. unfold exists_.
  destruct (fault e ExistsPrepare); [discriminate|].
  destruct (fault e ExistsScan); [discriminate|].
  destruct (find (exists_where p) (users db)) as [w|] eqn:Hfind.
  - apply find_some in Hfind. destruct Hfind as [_ Hw].
    unfold exists_where in Hw.
    destruct (sql_eq (u_email w) (ex_Email p)) eqn:E1.
    + rewrite (Hsound _ _ E1), String.eqb_refl. discriminate.
    + rewrite orb_false_r in Hw. apply andb_true_iff in Hw.
      destruct Hw as [_ Hw]. rewrite (Hsound _ _ Hw), String.eqb_refl.
      destruct (String.eqb (ToLower (u_email w)) (ToLower (ex_Email p)));
        discriminate.
  - intros _ v Hv. exact (find_none _ _ Hfind v Hv).
Qed.

Lemma left_join_fst (db : DB) (r : UserRow * option OrgRow) :
  In r (left_join_orgs db) -> In (fst r) (users db).
Proof.
  unfold left_join_orgs. intros H. apply in_flat_map in H.
  destruct H as (v & Hv & Hr).
  destruct (filter (fun o => o_id o =? u_org_id v) (orgs db)) as [|o os].
  - destruct Hr as [<- | []]. exact Hv.
  - apply in_map_iff in Hr. destruct Hr as (o' & <- & _). exact Hv.
Qed.

(** X5. Round trip of sign-up and sign-in.  After a successful sign-up
    with a password of the caller's, for an account that is not passive,
    a sign-in with the account's e-mail and that password returns the very
    account, provided the store answers, the attempt is not rate limited,
    the organization of the account is not suspended and no live account
    signed up earlier carries that e-mail as its username. *)
Theorem SignUp_then_SignIn (us : Users) (e e2 : Env) (db : DB)
  (p : SignUpParams) (u : User) (token : string) :
  (forall x, sql_eq x x = true) ->
  (forall x y, sql_eq x y = true -> ToLower x = ToLower y) ->
  (forall password salt h,
     bcrypt_GenerateFromPassword password 12 salt = Some h ->
     bcrypt_CompareHashAndPassword h password = true) ->
  su_Password p <> "" ->
  su_Passive p = false ->
  fst (SignUp us e db p) = Ok (u, token) ->
  (forall v, In v (users db) -> u_deleted v = 0 ->
             sql_eq (u_username v) (Email u) = false) ->
  (forall o, In o (orgs db) -> o_id o = su_OrgId p -> o_suspended o = false) ->
  (forall s, fault e2 s = false) ->
  fst (isLocked us e2 (snd (SignUp us e db p)) (Email u)) = false ->
  exists c,
    fst (SignIn us e2 (snd (SignUp us e db p))
                (mkSignInParams "" (Email u) (su_Password p) None)) = Ok c
    /\ uwc_User c = u.
Proof.
  intros Hrefl Hsound Hbcrypt Hpw Hpassive Hok Huname Horg Hf Hlock.
  destruct (SignUp_success_inv us e db p u token Hok)
    as (hash & Hgen & (b & Hex) & Husers & Horgs & Hu).
  assert (Hpwd : signup_password us e p = su_Password p).
  { unfold signup_password. rewrite (String_eqb_neq_false _ _ Hpw).
    reflexivity. }
  rewrite Hpwd in Hgen.
  assert (Hmail : Email u = signup_email e p) by (rewrite Hu; reflexivity).
  set (row := signup_row us e db p hash) in *.
  set (db1 := snd (SignUp us e db p)) in *.
  assert (Hq : exists o,
            lookup_query db1 (Email u) = Some (row, o)
            /\ match o with
               | Some o1 => o_suspended o1 = false
               | None => True
               end).
  { unfold lookup_query, left_join_orgs. rewrite Husers, Horgs.
    rewrite flat_map_app. rewrite find_app_skip.
    - cbn [flat_map]. rewrite app_nil_r.
      destruct (filter (fun o => o_id o =? u_org_id row) (orgs db))
        as [|o1 os] eqn:Hfilter.
      + exists None. split; [|exact I]. cbn [find].
        unfold lookup_where. cbn [fst]. rewrite Hmail.
        change (u_email row) with (signup_email e p).
        rewrite Hrefl. reflexivity.
      + exists (Some o1). split.
        * cbn [map find]. unfold lookup_where. cbn [fst]. rewrite Hmail.
          change (u_email row) with (signup_email e p).
          rewrite Hrefl. reflexivity.
        * assert (Hin : In o1 (filter (fun o => o_id o =? u_org_id row)
                                 (orgs db)))
            by (rewrite Hfilter; left; reflexivity).
          apply filter_In in Hin. destruct Hin as [Hin Hid].
          apply Z.eqb_eq in Hid. apply Horg; assumption.
    - intros x Hx.
      pose proof (left_join_fst db x Hx) as Hv.
      pose proof (exists_ok_no_email_match e db _ b Hsound Hex (fst x) Hv)
        as Hnone.
      unfold exists_where in Hnone. cbn [ex_Email ex_Username] in Hnone.
      apply orb_false_iff in Hnone. destruct Hnone as [_ Hne].
      unfold lookup_where. rewrite Hmail, Hne. cbn [orb].
      destruct (u_deleted (fst x) =? 0) eqn:Hd;
        [|apply andb_false_r].
      apply Z.eqb_eq in Hd. rewrite <- Hmail.
      rewrite (Huname (fst x) Hv Hd). reflexivity. }
  destruct Hq as (o & Hq & Host).
  exists (scan_claims (row, o)). split.
  - rewrite SignIn_unfold.
    change (signin_identifier us
              (mkSignInParams "" (Email u) (su_Password p) None))
      with (Email u).
    rewrite Hlock. unfold authenticate, GetByUsername. rewrite !Hf.
    rewrite lookup_query_isLocked, Hq.
    assert (Hgate : Suspended (uwc_User (scan_claims (row, o)))
                    || OrgSuspended (uwc_Claims (scan_claims (row, o)))
                    || Passive (uwc_User (scan_claims (row, o))) = false).
    { unfold scan_claims. cbn. rewrite Hpassive.
      destruct o as [o1|]; [rewrite Host|]; reflexivity. }
    rewrite Hgate. cbn [fst u_password_hash row signup_row si_Password].
    rewrite (Hbcrypt _ _ _ Hgen). reflexivity.
  - rewrite Hu. reflexivity.
Qed.

(** X6. The e-mail of a soft-deleted account stays taken.  In the query of
    the existence check the deleted flag guards the username only, so a
    sign-up whose e-mail is carried by any row of the store, deleted or
    not, is refused and inserts nothing; the error is EmailTaken unless
    the row the query returns first is a live account matched by its
    username. *)
Theorem SignUp_refuses_email_of_any_row (us : Users) (e : Env) (db : DB)
  (p : SignUpParams) (v : UserRow) :
  (forall x, sql_eq x x = true) ->
  (forall x y, sql_eq x y = true -> ToLower x = ToLower y) ->
  fault e ExistsPrepare = false ->
  fault e ExistsScan = false ->
  su_Email p <> "" ->
  In v (users db) ->
  u_email v = su_Email p ->
  (SignUp us e db p = (Err ErrEmailTaken, db)
   \/ SignUp us e db p = (Err ErrUsernameTaken, db))
  /\ ((forall w, In w (users db) -> u_deleted w = 0 ->
                 sql_eq (u_username w) (su_Username p) = false) ->
      SignUp us e db p = (Err ErrEmailTaken, db)).
Proof.
  intros Hrefl Hsound F1 F2 Hne Hin Hmail.
  unfold SignUp, Tx.
  rewrite (String_eqb_neq_false _ _ Hne), andb_false_r.
  unfold exists_. rewrite F1, F2.
  destruct (find (exists_where (mkExistsParams (su_Email p) (su_Username p)))
              (users db)) as [w|] eqn:Hfind.
  - apply find_some in Hfind. destruct Hfind as [Hw Hm].
    unfold exists_where in Hm. cbn [ex_Email ex_Username] in *.
    destruct (sql_eq (u_email w) (su_Email p)) eqn:E1.
    + rewrite (Hsound _ _ E1), String.eqb_refl. split; auto.
    + rewrite orb_false_r in Hm. apply andb_true_iff in Hm.
      destruct Hm as [Hd Hu]. apply Z.eqb_eq in Hd. split.
      * rewrite (Hsound _ _ Hu), String.eqb_refl.
        destruct (String.eqb (ToLower (u_email w)) (ToLower (su_Email p)));
          auto.
      * intros Hfree. rewrite (Hfree w Hw Hd) in Hu. discriminate.
  - exfalso. pose proof (find_none _ _ Hfind v Hin) as Hn.
    unfold exists_where in Hn. cbn [ex_Email] in Hn.
    rewrite Hmail, Hrefl, orb_true_r in Hn. discriminate.
Qed.

(** X7. [Exists] never answers [true]: when the inner check reports a
    taken e-mail or username it does so with an error, and [Exists] then
    returns [false] with that error; its boolean is [false] for every
    store and every request, and the store is left as it was. *)
Theorem Users_Exists_never_true (e : Env) (db : DB) (p : ExistsParams) :
  fst (fst (Users_Exists e db p)) = false
  /\ snd (Users_Exists e db p) = db.
Proof.
  unfold Users_Exists, Tx, exists_.
  destruct (fault e ExistsPrepare); [split; reflexivity|].
  destruct (fault e ExistsScan); [split; reflexivity|].
  destruct (find (exists_where p) (users db)) as [w|]; [|split; reflexivity].
  destruct (String.eqb (ToLower (u_email w)) (ToLower (ex_Email p)));
    [split; reflexivity|].
  destruct (String.eqb (ToLower (u_username w)) (ToLower (ex_Username p)));
    split; reflexivity.
Qed.

(** X8. A sign-up can fail after the account is stored.  The activation
    token is issued after the transaction that inserts the account has
    committed; when a sign-up without password, for an account that is
    not passive, gets through the insertion and the insertion of the
    token then fails, the caller receives an error and the account row
    stays in the store. *)
Theorem SignUp_error_after_insert (us : Users) (e : Env) (db : DB)
  (p : SignUpParams) (b : bool) (hash : string) :
  su_Password p = "" ->
  su_Passive p = false ->
  exists_ e db (mkExistsParams (su_Email p) (su_Username p)) = Ok b ->
  fault e SignUpPrepare = false ->
  fault e SignUpExec = false ->
  fault e SignUpLastInsertId = false ->
  bcrypt_GenerateFromPassword (us_PassGen us 128 (rand_seed e 0%nat)) 12
    (rand_salt e) = Some hash ->
  fault e ResetExec = true ->
  (exists err, fst (SignUp us e db p) = Err err)
  /\ users (snd (SignUp us e db p))
     = (users db ++ [signup_row us e db p hash])%list.
Proof.
  intros Hpw Hpassive Hex F1 F2 F3 Hgen FR.
  unfold SignUp, Tx. rewrite Hpassive, Hpw. cbn [andb String.eqb negb].
  rewrite Hex, F1. unfold hashPassword. rewrite Hgen, F2, F3.
  cbn [Uid Username Email FirstName LastName Phone OrgId Updated Created
       UserRole Passive Suspended negb].
  set (db1 := insert_user db _).
  assert (Hrow : users db1 = (users db ++ [signup_row us e db p hash])%list).
  { unfold db1, insert_user, signup_row, signup_username, signup_email.
    rewrite Hpassive. cbn [users andb]. reflexivity. }
  unfold ResetPassword.
  destruct (GetByUsername (after_draw e) db1 _) as [[c h]|err].
  - destruct (Passive (uwc_User c)).
    + split; [eexists; reflexivity | exact Hrow].
    + unfold Tx. cbn [fault after_draw].
      destruct (fault e ResetRevoke);
        [split; [eexists; reflexivity | exact Hrow]|].
      destruct (fault e ResetPrepare);
        [split; [eexists; reflexivity | exact Hrow]|].
      rewrite FR. split; [eexists; reflexivity | exact Hrow].
  - split; [eexists; reflexivity | exact Hrow].
Qed.

(** *** Password reset and change *)

Lemma consume_token_users (us : Users) (e : Env) (db : DB)
  (p : ChangePasswordParams) :
  users (snd (Tx db (consume_token us e p))) = users db.
Proof.
  unfold Tx, consume_token.
  destruct (fault e ChangeSelect); [reflexivity|].
  destruct (latest_reset db (cp_Email p)) as [r|]; [|reflexivity].
  destruct (negb (String.eqb (pr_reset_token r) (cp_ResetToken p)));
    [reflexivity|].
  destruct (Milliseconds (now e) >? expires_at us (pr_created r));
    [reflexivity|].
  destruct (fault e ChangeRevoke); reflexivity.
Qed.

(** X9. Change-password never alters an account when it returns an
    error: whichever step fails, on either path, every row of [users] is
    what it was before the call. *)
Theorem ChangePassword_error_keeps_users (us : Users) (e : Env) (db : DB)
  (p : ChangePasswordParams) (err : error) :
  fst (ChangePassword us e db p) = Some err ->
  users (snd (ChangePassword us e db p)) = users db.
Proof.
  unfold ChangePassword.
  destruct (negb (String.eqb (cp_ExistingPassword p) "")).
  - pose proof (SignIn_users us e db
                  (mkSignInParams "" (cp_Email p) (cp_ExistingPassword p) None))
      as Hu.
    destruct (SignIn us e db _) as [[u|err1] db1]; cbn [snd] in Hu;
      [|intros _; exact Hu].
    destruct (hashPassword e (cp_NewPassword p)); [|intros _; exact Hu].
    destruct (fault e ChangeUpdatePrepare); [intros _; exact Hu|].
    destruct (fault e ChangeUpdateExec); cbn [fst]; discriminate.
  - destruct (negb (String.eqb (cp_ResetToken p) "")); [|reflexivity].
    pose proof (consume_token_users us e db p) as Hu.
    destruct (Tx db (consume_token us e p)) as [[t|err1] db1];
      cbn [snd] in Hu; [|intros _; exact Hu].
    destruct (hashPassword e (cp_NewPassword p)); [|intros _; exact Hu].
    destruct (fault e ChangeUpdatePrepare); [intros _; exact Hu|].
    destruct (fault e ChangeUpdateExec); cbn [fst]; discriminate.
Qed.

Lemma update_password_no_match (db : DB) (hash : string) (updated : Z)
  (email : string) :
  (forall v, In v (users db) ->
             sql_eq (u_email v) email && (u_deleted v =? 0) = false) ->
  users (update_password db hash updated email) = users db.
Proof.
  intros H. unfold update_password. cbn [users].
  induction (users db) as [|v l IH]; [reflexivity|].
  cbn [map]. rewrite (H v (or_introl eq_refl)). f_equal.
  apply IH. intros w Hw. apply H. right. exact Hw.
Qed.

(** X10. Change-password updates by e-mail, whatever proved ownership.
    When no live account carries the e-mail of the request (the
    identifier matched an account by its username, or the account has
    been deleted since the token was issued) the call leaves every
    account as it was, also when it returns success. *)
Theorem ChangePassword_without_live_email (us : Users) (e : Env) (db : DB)
  (p : ChangePasswordParams) :
  (forall v, In v (users db) ->
             sql_eq (u_email v) (cp_Email p) && (u_deleted v =? 0) = false) ->
  users (snd (ChangePassword us e db p)) = users db.
Proof.
  intros Hnone. unfold ChangePassword.
  destruct (negb (String.eqb (cp_ExistingPassword p) "")).
  - pose proof (SignIn_users us e db
                  (mkSignInParams "" (cp_Email p) (cp_ExistingPassword p) None))
      as Hu.
    destruct (SignIn us e db _) as [[u|err1] db1]; cbn [snd] in Hu;
      [|exact Hu].
    destruct (hashPassword e (cp_NewPassword p)); [|exact Hu].
    destruct (fault e ChangeUpdatePrepare); [exact Hu|].
    destruct (fault e ChangeUpdateExec); [exact Hu|]. cbn [snd].
    rewrite update_password_no_match; [exact Hu|]. rewrite Hu. exact Hnone.
  - destruct (negb (String.eqb (cp_ResetToken p) "")); [|reflexivity].
    pose proof (consume_token_users us e db p) as Hu.
    destruct (Tx db (consume_token us e p)) as [[t|err1] db1];
      cbn [snd] in Hu; [|exact Hu].
    destruct (hashPassword e (cp_NewPassword p)); [|exact Hu].
    destruct (fault e ChangeUpdatePrepare); [exact Hu|].
    destruct (fault e ChangeUpdateExec); [exact Hu|]. cbn [snd].
    rewrite update_password_no_match; [exact Hu|]. rewrite Hu. exact Hnone.
Qed.

Lemma latest_reset_single (db : DB) (email : string) (row : ResetRow) :
  filter (live_reset email) (password_resets db) = [row] ->
  latest_reset db email = Some row.
Proof. intros H. unfold latest_reset. rewrite H. reflexivity. Qed.

Lemma latest_reset_none (db : DB) (email : string) :
  filter (live_reset email) (password_resets db) = [] ->
  latest_reset db email = None.
Proof. intros H. unfold latest_reset. rewrite H. reflexivity. Qed.

(** X11. Round trip of reset and change.  A token issued by
    [ResetPassword], for a request that names the account by its e-mail,
    is accepted by [ChangePassword] with that e-mail up to and including
    [ResetTokenExpiry] seconds after it was issued: the call returns no
    error, revokes the token and stores the new digest on the live
    accounts of that e-mail. *)
Theorem ResetPassword_then_ChangePassword (us : Users) (e1 e2 : Env)
  (db : DB) (p : ResetPasswordParams) (r : UserRow * option OrgRow)
  (new_password hash : string) :
  (forall s, fault e1 s = false) ->
  (forall s, fault e2 s = false) ->
  lookup_query db (rp_Email p) = Some r ->
  u_passive (fst r) <> Some true ->
  sql_eq (u_email (fst r)) (rp_Email p) = true ->
  us_PassGen us 128 (rand_seed e1 0%nat) <> "" ->
  bcrypt_GenerateFromPassword new_password 12 (rand_salt e2) = Some hash ->
  Int64.in_range (us_ResetTokenExpiry us * 1000) ->
  Int64.in_range (now e1 + us_ResetTokenExpiry us * 1000) ->
  now e2 <= now e1 + us_ResetTokenExpiry us * 1000 ->
  let token := us_PassGen us 128 (rand_seed e1 0%nat) in
  let db1 := snd (ResetPassword us e1 db p) in
  fst (ResetPassword us e1 db p) = Ok token
  /\ ChangePassword us e2 db1
       (mkChangePasswordParams (rp_Email p) "" new_password token None)
     = (None,
        update_password (revoke_resets db1 (rp_Email p)) hash (now e2)
                        (rp_Email p)).
Proof.
  intros Hf1 Hf2 Hq Hp Hmail Htok Hgen R1 R2 Hnow token db1.
  destruct (ResetPassword_live_tokens us e1 db p r Hf1 Hq Hp)
    as (Hres & _ & Hlive).
  cbv zeta in Hres, Hlive. rewrite Hmail in Hlive.
  split; [exact Hres|].
  unfold ChangePassword. cbn [cp_ExistingPassword cp_ResetToken cp_Email
                              cp_NewPassword String.eqb negb].
  fold token in Htok. rewrite (String_eqb_neq_false _ _ Htok). cbn [negb].
  unfold Tx, consume_token. rewrite !Hf2.
  cbn [cp_Email cp_ResetToken].
  fold db1 in Hlive. rewrite (latest_reset_single db1 _ _ Hlive).
  cbn [pr_reset_token pr_created]. fold token. rewrite String.eqb_refl.
  cbn [negb]. rewrite (expires_at_exact us (now e1) R1 R2).
  unfold Milliseconds.
  assert (Hle : (now e2 >? now e1 + us_ResetTokenExpiry us * 1000) = false).
  { rewrite Z.gtb_ltb. apply Z.ltb_ge. exact Hnow. }
  rewrite Hle. unfold hashPassword. rewrite Hgen. reflexivity.
Qed.

(** X12. A reset token is single use.  Once change-password has succeeded
    on the token path, every later call on the token path for that
    e-mail is refused with NotFound, whatever token it carries, until a
    new token is issued. *)
Theorem reset_token_single_use (us : Users) (e e2 : Env) (db : DB)
  (p p2 : ChangePasswordParams) :
  cp_ExistingPassword p = "" ->
  fst (ChangePassword us e db p) = None ->
  cp_ExistingPassword p2 = "" ->
  cp_ResetToken p2 <> "" ->
  cp_Email p2 = cp_Email p ->
  fault e2 ChangeSelect = false ->
  fst (ChangePassword us e2 (snd (ChangePassword us e db p)) p2)
  = Some NotFoundError.
Proof.
  intros Hex Hok Hex2 Htok2 Hmail F2.
  assert (Hdead : filter (live_reset (cp_Email p))
                    (password_resets (snd (ChangePassword us e db p))) = []).
  { revert Hok. unfold ChangePassword. rewrite Hex. cbn [String.eqb negb].
    destruct (negb (String.eqb (cp_ResetToken p) ""));
      [|cbn [fst]; discriminate].
    unfold Tx, consume_token.
    destruct (fault e ChangeSelect); [cbn [fst]; discriminate|].
    destruct (latest_reset db (cp_Email p)) as [r|];
      [|cbn [fst]; discriminate].
    destruct (negb (String.eqb (pr_reset_token r) (cp_ResetToken p)));
      [cbn [fst]; discriminate|].
    destruct (Milliseconds (now e) >? expires_at us (pr_created r));
      [cbn [fst]; discriminate|].
    destruct (fault e ChangeRevoke); [cbn [fst]; discriminate|].
    destruct (hashPassword e (cp_NewPassword p));
      [|cbn [fst]; discriminate].
    destruct (fault e ChangeUpdatePrepare); [cbn [fst]; discriminate|].
    destruct (fault e ChangeUpdateExec); intros _; cbn [snd];
      [|unfold update_password; cbn [password_resets]];
      apply revoke_resets_no_live. }
  unfold ChangePassword at 1. rewrite Hex2. cbn [String.eqb negb].
  rewrite (String_eqb_neq_false _ _ Htok2). cbn [negb].
  unfold Tx, consume_token. rewrite F2, Hmail.
  rewrite (latest_reset_none _ _ Hdead). reflexivity.
Qed.

(** *** Account administration *)

Lemma find_all_false {A : Type} (f : A -> bool) (l : list A) :
  (forall x, In x l -> f x = false) -> find f l = None.
Proof.
  induction l as [|a l IH]; intros H; [reflexivity|].
  cbn [find]. rewrite (H a (or_introl eq_refl)).
  apply IH. intros x Hx. apply H. right. exact Hx.
Qed.

Lemma find_map_update {A : Type} (f : A -> bool) (g : A -> A) (l : list A) :
  (forall x, f x = true -> f (g x) = true) ->
  find f (map (fun x => if f x then g x else x) l) = option_map g (find f l).
Proof.
  intros Hg. induction l as [|a l IH]; [reflexivity|].
  cbn [map find]. destruct (f a) eqn:E.
  - rewrite (Hg a E). reflexivity.
  - rewrite E. exact IH.
Qed.

Lemma Get_found (e : AdminEnv) (db : DB) (id : Z) (u : User) :
  Get e db id = AOk u ->
  exists v, find (live_with_id id) (users db) = Some v
            /\ u = scan_user v /\ u_id v = id /\ u_deleted v = 0.
Proof.
  unfold Get, scanUser.
  destruct (a_fault e GetPrepare); [discriminate|].
  destruct (a_fault e GetScan); [discriminate|].
  destruct (find (live_with_id id) (users db)) as [v|] eqn:Hfind;
    [|discriminate].
  cbn. intros H. inversion H as [Hu]. exists v.
  apply find_some in Hfind. destruct Hfind as [_ Hl].
  unfold live_with_id in Hl. apply andb_true_iff in Hl.
  destruct Hl as [Hi Hd]. apply Z.eqb_eq in Hi, Hd. auto.
Qed.

(** X13. [Get] returns live accounts only, and the one asked for: an
    account it returns carries the requested id and its row is not
    deleted; for an id without a live row it returns NotFound. *)
Theorem Get_only_live (e : AdminEnv) (db : DB) (id : Z) :
  (forall u, Get e db id = AOk u ->
             Id u = id
             /\ exists v, In v (users db) /\ u_deleted v = 0
                          /\ u = scan_user v)
  /\ (a_fault e GetPrepare = None -> a_fault e GetScan = None ->
      (forall v, In v (users db) -> u_id v = id -> u_deleted v <> 0) ->
      Get e db id = AErr ErrNotFound).
Proof.
  split.
  - intros u H. destruct (Get_found e db id u H) as (v & Hf & -> & Hid & Hd).
    split; [exact Hid|]. exists v. apply find_some in Hf.
    destruct Hf as [Hin _]. auto.
  - intros F1 F2 Hnone. unfold Get, scanUser. rewrite F1, F2.
    rewrite find_all_false; [reflexivity|].
    intros v Hv. unfold live_with_id.
    destruct (u_id v =? id) eqn:E; [|reflexivity].
    apply Z.eqb_eq in E. specialize (Hnone v Hv E).
    destruct (u_deleted v =? 0) eqn:D; [|reflexivity].
    apply Z.eqb_eq in D. contradiction.
Qed.

(** X14. Delete is a soft delete: with the store answering, the account
    is no longer found by [Get] afterwards, while no row is removed and
    every row keeps its id, username, e-mail and password digest. *)
Theorem Delete_then_Get (e e2 : AdminEnv) (db : DB) (id : Z) :
  a_fault e DeletePrepare = None ->
  a_fault e DeleteExec = None ->
  a_fault e2 GetPrepare = None ->
  a_fault e2 GetScan = None ->
  Get e2 (snd (Delete e db id)) id = AErr ErrNotFound
  /\ map (fun v => (u_id v, u_username v, u_email v, u_password_hash v))
         (users (snd (Delete e db id)))
     = map (fun v => (u_id v, u_username v, u_email v, u_password_hash v))
           (users db).
Proof.
  intros F1 F2 F3 F4. unfold Delete, exec_update. rewrite F1, F2.
  cbn [snd]. split.
  - apply (proj2 (Get_only_live e2 _ id) F3 F4).
    cbn [users]. intros v Hv Hid. apply in_map_iff in Hv.
    destruct Hv as (w & <- & _).
    revert Hid. destruct (live_with_id id w) eqn:E; [cbn; discriminate|].
    intros Hid Hd. unfold live_with_id in E.
    rewrite Hid, Hd, !Z.eqb_refl in E. discriminate.
  - cbn [users]. rewrite map_map. apply map_ext. intros v.
    destruct (live_with_id id v); reflexivity.
Qed.

(** X15. Deleting an account closes sign-in by its username.  If the
    identifier of a sign-in is the e-mail of no row and the username of
    live rows with the deleted id only, then after [Delete] the sign-in
    returns no account, whatever the password. *)
Theorem Delete_revokes_username_signin (us : Users) (e : AdminEnv) (e2 : Env)
  (db : DB) (id : Z) (p : SignInParams) :
  a_fault e DeletePrepare = None ->
  a_fault e DeleteExec = None ->
  (forall v, In v (users db) ->
             sql_eq (u_email v) (signin_identifier us p) = false) ->
  (forall v, In v (users db) ->
             sql_eq (u_username v) (signin_identifier us p) = true ->
             u_deleted v = 0 -> u_id v = id) ->
  forall c, fst (SignIn us e2 (snd (Delete e db id)) p) <> Ok c.
Proof.
  intros F1 F2 Hmail Huser c.
  set (ident := signin_identifier us p) in *.
  assert (Hq : lookup_query (snd (Delete e db id)) ident = None).
  { unfold lookup_query. apply find_all_false. intros x Hx.
    apply left_join_fst in Hx. revert Hx.
    unfold Delete, exec_update. rewrite F1, F2. cbn [snd users].
    intros Hx. apply in_map_iff in Hx. destruct Hx as (w & Hw & Hin).
    unfold lookup_where. rewrite <- Hw.
    destruct (live_with_id id w) eqn:E.
    - cbn. rewrite (Hmail w Hin). cbn. apply andb_false_r.
    - rewrite (Hmail w Hin). cbn [orb].
      destruct (sql_eq (u_username w) ident) eqn:Eu; [|reflexivity].
      destruct (u_deleted w =? 0) eqn:Ed; [|reflexivity].
      apply Z.eqb_eq in Ed. pose proof (Huser w Hin Eu Ed) as Hid.
      unfold live_with_id in E. rewrite Hid, Ed, !Z.eqb_refl in E.
      discriminate. }
  rewrite SignIn_unfold. fold ident.
  destruct (fst (isLocked us e2 (snd (Delete e db id)) ident));
    [cbn; discriminate|].
  unfold authenticate, GetByUsername.
  destruct (fault e2 LookupPrepare); [cbn; discriminate|].
  destruct (fault e2 LookupScan); [cbn; discriminate|].
  rewrite lookup_query_isLocked, Hq. cbn. discriminate.
Qed.

Lemma find_some_filter_length {A : Type} (f : A -> bool) (l : list A)
  (a : A) :
  find f l = Some a -> 1 <= Z.of_nat (List.length (filter f l)).
Proof.
  intros H. apply find_some in H. destruct H as [Hin Hf].
  assert (Hi : In a (filter f l)) by (apply filter_In; auto).
  destruct (filter f l); [destruct Hi | cbn [List.length]; lia].
Qed.

(** X16. [AssignRole] on a live account: a passive account is refused and
    nothing is written; for any other the statement matches at least one
    row and [Get] afterwards returns the account with the new role and
    the time of the change, everything else as before. *)
Theorem AssignRole_then_Get (e e2 : AdminEnv) (db : DB) (id : Z)
  (role : Role) (u : User) :
  (forall s, a_fault e s = None) ->
  a_fault e2 GetPrepare = None ->
  a_fault e2 GetScan = None ->
  Get e db id = AOk u ->
  let p := mkAssignRoleParams (Some id) (Some role) None in
  (Passive u = true ->
   AssignRole e db p
   = Returns (Some (Engine (ErrInvalid
                              ["This user is passive, cannot assign a role"])),
              db))
  /\ (Passive u = false ->
      exists n db',
        1 <= n
        /\ AssignRole e db p = Returns (CheckUpdated (ExecOk n), db')
        /\ Get e2 db' id
           = AOk (mkUser (Id u) (Uid u) (Username u) (Email u) (FirstName u)
                         (LastName u) (Phone u) (OrgId u) (a_now e)
                         (Created u) role (Passive u) (Suspended u))).
Proof.
  intros Hf F1 F2 Hget p. split.
  - intros Hp. unfold AssignRole. cbn [ar_Id p]. rewrite Hget, Hp.
    reflexivity.
  - intros Hp. destruct (Get_found e db id u Hget)
      as (v & Hfind & Hu & Hid & Hd).
    assert (HI : Id u = id) by (rewrite Hu; exact Hid).
    assert (Hafter :
      Get e2 (mkDB (map (fun x => if live_with_id id x
                                  then set_role role (Milliseconds (a_now e)) x
                                  else x) (users db))
                   (orgs db) (password_attempts db) (password_resets db)) id
      = AOk (mkUser (Id u) (Uid u) (Username u) (Email u) (FirstName u)
                    (LastName u) (Phone u) (OrgId u) (a_now e)
                    (Created u) role (Passive u) (Suspended u))).
    { unfold Get, scanUser. rewrite F1, F2. cbn [users].
      rewrite find_map_update; [|intros x Hx; exact Hx].
      rewrite Hfind. cbn [option_map CheckRows]. rewrite Hu. reflexivity. }
    unfold AssignRole. cbn [ar_Id ar_Role p]. rewrite Hget, Hp, Hf.
    unfold exec_update. rewrite Hf, HI. rewrite HI, Hp in Hafter.
    eexists. eexists. split; [|split; [reflexivity | exact Hafter]].
    exact (find_some_filter_length _ _ _ Hfind).
Qed.

(** X17. What [Update] never touches.  Whatever the merge of the
    parameters produces and however the call ends, no row is added or
    removed and every row keeps its id, uid, username, password digest,
    organization, creation time, deletion flag, role, suspension and
    passive flag: the statement writes first name, last name, e-mail,
    phone and the update time only. *)
Theorem Update_preserves_identity (e : AdminEnv) (db : DB)
  (p : UpdateUserParams) (r : option admin_error) (db' : DB) :
  Update e db p = Returns (r, db') ->
  map (fun v => (u_id v, u_uid v, u_username v, u_password_hash v,
                 u_org_id v, u_created v, u_deleted v, u_role v,
                 u_suspended v, u_passive v)) (users db')
  = map (fun v => (u_id v, u_uid v, u_username v, u_password_hash v,
                   u_org_id v, u_created v, u_deleted v, u_role v,
                   u_suspended v, u_passive v)) (users db)
  /\ orgs db' = orgs db
  /\ password_attempts db' = password_attempts db
  /\ password_resets db' = password_resets db.
Proof.
  unfold Update.
  destruct (up_Id p) as [id|]; [|discriminate].
  destruct (Get e db id) as [u0|err];
    [|intros H; inversion H; auto].
  destruct (a_fault e UpdatePrepare); [intros H; inversion H; auto|].
  unfold exec_update.
  destruct (a_fault e UpdateExec).
  - destruct (CheckUpdated _) as [err|]; [|intros H; inversion H; auto].
    destruct (Contains (error_text err) "Duplicate entry");
      intros H; inversion H; auto.
  - destruct (CheckUpdated _) as [err|].
    + destruct (Contains (error_text err) "Duplicate entry");
        intros H; inversion H; cbn [users orgs password_attempts
                                     password_resets];
        (split; [|auto]); rewrite map_map; apply map_ext; intros v;
        destruct (live_with_id (Id (ApplyUpdates u0 p)) v); reflexivity.
    + intros H; inversion H; cbn [users orgs password_attempts
                                   password_resets];
        (split; [|auto]); rewrite map_map; apply map_ext; intros v;
        destruct (live_with_id (Id (ApplyUpdates u0 p)) v); reflexivity.
Qed.

(** X18. What [Update] persists.  For a live account, when the merge
    keeps the id and the store answers, [Get] afterwards returns the
    account with the first name, last name, e-mail and phone of the
    merged user and the time of the update; the username and every other
    field are those stored before, whatever the merge did to them. *)
Theorem Update_then_Get (e e2 : AdminEnv) (db : DB) (p : UpdateUserParams)
  (id : Z) (u0 : User) :
  (forall s, a_fault e s = None) ->
  a_fault e2 GetPrepare = None ->
  a_fault e2 GetScan = None ->
  up_Id p = Some id ->
  Get e db id = AOk u0 ->
  Id (ApplyUpdates u0 p) = id ->
  exists r db',
    Update e db p = Returns (r, db')
    /\ Get e2 db' id
       = AOk (mkUser (Id u0) (Uid u0) (Username u0)
                     (Email (ApplyUpdates u0 p))
                     (FirstName (ApplyUpdates u0 p))
                     (LastName (ApplyUpdates u0 p))
                     (Phone (ApplyUpdates u0 p))
                     (OrgId u0) (a_now e) (Created u0) (UserRole u0)
                     (Passive u0) (Suspended u0)).
Proof.
  intros Hf F1 F2 Hid Hget Hkeep.
  destruct (Get_found e db id u0 Hget) as (v & Hfind & Hu & Hv & Hd).
  assert (Hafter :
    Get e2 (mkDB (map (fun x => if live_with_id id x
                                then set_profile
                                       (FirstName (ApplyUpdates u0 p))
                                       (LastName (ApplyUpdates u0 p))
                                       (Email (ApplyUpdates u0 p))
                                       (Phone (ApplyUpdates u0 p))
                                       (Milliseconds (a_now e)) x
                                else x) (users db))
                 (orgs db) (password_attempts db) (password_resets db)) id
    = AOk (mkUser (Id u0) (Uid u0) (Username u0)
                  (Email (ApplyUpdates u0 p))
                  (FirstName (ApplyUpdates u0 p))
                  (LastName (ApplyUpdates u0 p))
                  (Phone (ApplyUpdates u0 p))
                  (OrgId u0) (a_now e) (Created u0) (UserRole u0)
                  (Passive u0) (Suspended u0))).
  { unfold Get, scanUser. rewrite F1, F2. cbn [users].
    rewrite find_map_update; [|intros x Hx; exact Hx].
    rewrite Hfind. cbn [option_map CheckRows]. rewrite Hu. reflexivity. }
  unfold Update. rewrite Hid, Hget, Hf. unfold exec_update.
  rewrite Hf, Hkeep.
  destruct (CheckUpdated _) as [err|].
  - destruct (Contains (error_text err) "Duplicate entry");
      eexists; eexists; (split; [reflexivity | exact Hafter]).
  - eexists; eexists; (split; [reflexivity | exact Hafter]).
Qed.

(** X19. Nil pointers.  [Update] and [AssignRole] dereference the id of
    their parameters and the default validator of the update parameters
    dereferences the e-mail, none of them after a nil check: a call
    without id, and the validation of an update that carries no e-mail
    and no custom validator, panic instead of returning an error; with
    the pointer set they return. *)
Theorem nil_pointer_dereferences (e : AdminEnv) (db : DB)
  (up : UpdateUserParams) (ar : AssignRoleParams) :
  (Update e db up = Panics <-> up_Id up = None)
  /\ (AssignRole e db ar = Panics <-> ar_Id ar = None)
  /\ (UpdateUserParams_Validate up = Panics <->
      up_CustomValidator up = None /\ up_Email up = None).
Proof.
  split; [|split].
  - unfold Update. destruct (up_Id up) as [id|];
      [|split; reflexivity].
    split; [|discriminate].
    destruct (Get e db id); [|discriminate].
    destruct (a_fault e UpdatePrepare); [discriminate|].
    destruct (exec_update e UpdateExec db _ _) as [r db1].
    destruct (CheckUpdated r) as [err|]; [|discriminate].
    destruct (Contains (error_text err) "Duplicate entry"); discriminate.
  - unfold AssignRole. destruct (ar_Id ar) as [id|];
      [|split; reflexivity].
    split; [|discriminate].
    destruct (Get e db id) as [u|]; [|discriminate].
    destruct (Passive u); [discriminate|].
    destruct (a_fault e RolePrepare); [discriminate|].
    destruct (exec_update e RoleExec db _ _) as [r db1]. discriminate.
  - unfold UpdateUserParams_Validate.
    destruct (up_CustomValidator up) as [validator|].
    + split; [discriminate | intros [H _]; discriminate].
    + destruct (up_Email up) as [email|].
      * split; [|intros [_ H]; discriminate].
        destruct (negb (String.eqb email "")
                  && negb (govalidator_IsEmail email)); discriminate.
      * split; auto.
Qed.

(** X20. The default validator of the sign-in parameters looks at the
    password and the username only.  Its e-mail test is without effect
    (a username that is not empty passes whether or not it is an e-mail
    address), and the [Email] field is not read: a request that carries
    its identifier in [Email] alone, which [SignIn] would resolve, is
    refused. *)
Theorem SignInParams_Validate_ignores_email (va : SignInParams) :
  govalidator_IsEmail "" = false ->
  si_CustomValidator va = None ->
  (SignInParams_Validate va = None <->
   si_Password va <> "" /\ si_Username va <> "")
  /\ (si_Password va <> "" -> si_Username va = "" ->
      SignInParams_Validate va = Some ErrUsernameOrEmailRequired).
Proof.
  intros Hempty Hcv. unfold SignInParams_Validate, IsNull. rewrite Hcv.
  destruct (String.eqb (si_Password va) "") eqn:Ep.
  - apply String.eqb_eq in Ep. split.
    + split; [discriminate | intros [H _]; contradiction].
    + intros H. contradiction.
  - apply String.eqb_neq in Ep.
    destruct (String.eqb (si_Username va) "") eqn:Eu.
    + apply String.eqb_eq in Eu. rewrite Eu, Hempty. cbn. split.
      * split; [discriminate | intros [_ H]; contradiction].
      * reflexivity.
    + apply String.eqb_neq in Eu. rewrite andb_false_r. split.
      * split; auto.
      * intros _ H. contradiction.
Qed.

(** *** List *)

Lemma string_app_assoc (a b c : string) : (a ++ b) ++ c = a ++ (b ++ c).
Proof. induction a as [|x a IH]; cbn; [reflexivity | rewrite IH; reflexivity]. Qed.

Lemma string_app_nil_r (a : string) : a ++ "" = a.
Proof. induction a as [|x a IH]; cbn; [reflexivity | rewrite IH; reflexivity]. Qed.

Lemma placeholders_app (a b : string) :
  placeholders (a ++ b) = (placeholders a + placeholders b)%nat.
Proof.
  induction a as [|x a IH]; cbn; [reflexivity|]. rewrite IH. lia.
Qed.

Lemma plainClause_shares (st : string * string * list sqlarg)
  (clause : string) :
  placeholders clause = 0%nat ->
  shares_filters st -> shares_filters (plainClause st clause).
Proof.
  intros Hc (f & Hq & Hn & Hp). destruct st as [[q countq] args].
  unfold plainClause. cbn [fst snd] in *. exists (f ++ clause).
  subst q countq.
  rewrite !string_app_assoc, placeholders_app, Hc, Hp.
  repeat split. cbn [snd]. lia.
Qed.

Lemma withClause_shares (st : string * string * list sqlarg)
  (clause : string) (val : sqlarg) :
  placeholders clause = 1%nat ->
  shares_filters st -> shares_filters (withClause st clause val).
Proof.
  intros Hc (f & Hq & Hn & Hp). destruct st as [[q countq] args].
  unfold withClause, addClause. cbn [fst snd] in *. exists (f ++ clause).
  subst q countq.
  cbn [snd].
  rewrite !string_app_assoc, placeholders_app, Hc, Hp, length_app.
  split; [reflexivity|]. split; [reflexivity|]. cbn [List.length]. lia.
Qed.

(** X21. The queries [List] builds are well formed whatever the filters:
    the listing query and the count query are their fixed heads followed
    by the same filter text, and each has exactly as many placeholders as
    arguments are bound. *)
Theorem list_queries_well_formed (p : ListUsersParams) :
  shares_filters (list_queries p)
  /\ placeholders (fst (fst (list_queries p)))
     = List.length (snd (list_queries p))
  /\ placeholders (snd (fst (list_queries p)))
     = List.length (snd (list_queries p)).
Proof.
  assert (H : shares_filters (list_queries p)).
  { unfold list_queries.
    set (f := lp_UserFilters p).
    assert (H0 : shares_filters (list_select, list_count, @nil sqlarg)).
    { exists "". cbn [fst snd]. rewrite !string_app_nil_r. repeat split. }
    set (st0 := (list_select, list_count, @nil sqlarg)) in *.
    assert (H1 : shares_filters
                   (if negb (la_Deleted (lp_ListArgs p))
                    then plainClause st0 " AND u.deleted = 0" else st0)).
    { destruct (negb (la_Deleted (lp_ListArgs p)));
        [apply plainClause_shares; [reflexivity | exact H0] | exact H0]. }
    set (st1 := if negb (la_Deleted (lp_ListArgs p)) then _ else _) in *.
    assert (H2 : shares_filters
                   (if uf_OrgId f >? 0
                    then withClause st1 " AND u.org_id = ?"
                                    (ArgInt (uf_OrgId f))
                    else st1)).
    { destruct (uf_OrgId f >? 0);
        [apply withClause_shares; [reflexivity | exact H1] | exact H1]. }
    set (st2 := if uf_OrgId f >? 0 then _ else _) in *.
    assert (H3 : shares_filters
                   (if uf_Role f >? 0
                    then withClause st2 " AND u.role = ?" (ArgInt (uf_Role f))
                    else st2)).
    { destruct (uf_Role f >? 0);
        [apply withClause_shares; [reflexivity | exact H2] | exact H2]. }
    set (st3 := if uf_Role f >? 0 then _ else _) in *.
    assert (H4 : shares_filters
                   (match uf_Suspended f with
                    | Some true => plainClause st3 " AND u.suspended = 1"
                    | Some false => plainClause st3 " AND u.suspended = 0"
                    | None => st3
                    end)).
    { destruct (uf_Suspended f) as [[|]|];
        [apply plainClause_shares; [reflexivity | exact H3]
        |apply plainClause_shares; [reflexivity | exact H3]
        |exact H3]. }
    set (st4 := match uf_Suspended f with Some _ => _ | None => _ end) in *.
    assert (H5 : shares_filters
                   (if negb (String.eqb (uf_Name f) "")
                    then withClause
                           (withClause st4 " AND (u.first_name like ?"
                                       (ArgText ("%" ++ uf_Name f ++ "%")))
                           " OR u.last_name like ?)"
                           (ArgText ("%" ++ uf_Name f ++ "%"))
                    else st4)).
    { destruct (negb (String.eqb (uf_Name f) "")); [|exact H4].
      apply withClause_shares; [reflexivity|].
      apply withClause_shares; [reflexivity | exact H4]. }
    set (st5 := if negb (String.eqb (uf_Name f) "") then _ else _) in *.
    assert (H6 : shares_filters
                   (if negb (String.eqb (uf_Phone f) "")
                    then withClause st5 " AND u.phone like ?"
                                    (ArgText ("%" ++ uf_Phone f ++ "%"))
                    else st5)).
    { destruct (negb (String.eqb (uf_Phone f) ""));
        [apply withClause_shares; [reflexivity | exact H5] | exact H5]. }
    set (st6 := if negb (String.eqb (uf_Phone f) "") then _ else _) in *.
    destruct (negb (String.eqb (uf_Email f) ""));
      [apply withClause_shares; [reflexivity | exact H6] | exact H6]. }
  split; [exact H|].
  destruct H as (filters & Hq & Hn & Hp).
  rewrite Hq, Hn, !placeholders_app, Hp. split; reflexivity.
Qed.

(** X22. No filter value reaches the text of a query: two requests that
    carry the same filters, with whatever values, produce the same
    listing query and the same count query; the values travel as bound
    arguments only. *)
Theorem list_queries_text_ignores_values (p p' : ListUsersParams) :
  filters_present p = filters_present p' ->
  fst (list_queries p) = fst (list_queries p').
Proof.
  unfold filters_present. intros H. inversion H as [[H1 H2 H3 H4 H5 H6 H7]].
  unfold list_queries. rewrite <- H1, <- H2, <- H3, <- H4, <- H5, <- H6, <- H7.
  destruct (la_Deleted (lp_ListArgs p));
  destruct (uf_OrgId (lp_UserFilters p) >? 0);
  destruct (uf_Role (lp_UserFilters p) >? 0);
  destruct (uf_Suspended (lp_UserFilters p)) as [[|]|];
  destruct (String.eqb (uf_Name (lp_UserFilters p)) "");
  destruct (String.eqb (uf_Phone (lp_UserFilters p)) "");
  destruct (String.eqb (uf_Email (lp_UserFilters p)) "");
  reflexivity.
Qed.

Lemma scan_listed_none (r : UserRow * option string) :
  scan_listed r = None <->
  u_suspended (fst r) <> 0 /\ u_suspended (fst r) <> 1.
Proof.
  unfold scan_listed, bool_of_column.
  destruct (u_suspended (fst r) =? 0) eqn:E0.
  - apply Z.eqb_eq in E0. split; [discriminate | intros [H _]; contradiction].
  - apply Z.eqb_neq in E0.
    destruct (u_suspended (fst r) =? 1) eqn:E1.
    + apply Z.eqb_eq in E1.
      split; [discriminate | intros [_ H]; contradiction].
    + apply Z.eqb_neq in E1. split; auto.
Qed.

Lemma scan_rows_none (rows : list (UserRow * option string)) :
  scan_rows rows = None <-> exists r, In r rows /\ scan_listed r = None.
Proof.
  induction rows as [|r rows IH]; cbn [scan_rows].
  - split; [discriminate | intros (r & [] & _)].
  - destruct (scan_listed r) as [u|] eqn:E.
    + destruct (scan_rows rows) as [us|].
      * split; [discriminate|].
        intros (r' & [<- | Hin] & Hn); [congruence|].
        assert (Hc : Some us = None) by (apply (proj2 IH); exists r'; auto).
        discriminate Hc.
      * split; [|reflexivity]. intros _.
        destruct (proj1 IH eq_refl) as (r' & Hin & Hn).
        exists r'. split; [right; exact Hin | exact Hn].
    + split; [|reflexivity]. intros _. exists r. split; [left; reflexivity | exact E].
Qed.

(** X23. [List] can return neither a result nor an error.  When both
    queries succeed and a row fails to scan, the loop returns the error
    variable of the enclosing function, which is nil at that point: the
    caller gets a nil response with a nil error.  This happens exactly
    when some row has a [suspended] value other than 0 and 1, which the
    scan into a [bool] refuses. *)
Theorem List_scan_failure_returns_nothing (store : ListStore)
  (p : ListUsersParams) (rows : list (UserRow * option string))
  (rows_err : option admin_error) (total : Z) :
  ls_GetRows store (fst (fst (list_queries p))) (lp_ListArgs p)
             (snd (list_queries p)) = AOk (rows, rows_err) ->
  ls_Count store (snd (fst (list_queries p))) (snd (list_queries p))
  = AOk total ->
  (List store p = (None, None) <->
   exists r, In r rows
             /\ u_suspended (fst r) <> 0 /\ u_suspended (fst r) <> 1).
Proof.
  intros Hrows Hcount. unfold List.
  destruct (list_queries p) as [[q countq] args]. cbn [fst snd] in *.
  rewrite Hrows, Hcount.
  destruct (scan_rows rows) as [items|] eqn:Hscan.
  - split.
    + destruct rows_err; discriminate.
    + intros (r & Hin & Hbad). exfalso.
      assert (Hn : scan_rows rows = None).
      { apply scan_rows_none. exists r. split; [exact Hin|].
        apply scan_listed_none. exact Hbad. }
      congruence.
  - split; [|reflexivity]. intros _.
    destruct (proj1 (scan_rows_none rows) Hscan) as (r & Hin & Hn).
    exists r. split; [exact Hin|]. apply scan_listed_none. exact Hn.
Qed.

(** *** More round trips *)

Lemma find_map_inv {A : Type} (f : A -> bool) (g : A -> A) (l : list A) :
  (forall x, f (g x) = f x) ->
  find f (map g l) = option_map g (find f l).
Proof.
  intros H. induction l as [|a l IH]; [reflexivity|].
  cbn [map find]. rewrite H. destruct (f a); [reflexivity | exact IH].
Qed.

Lemma lookup_query_ext (a b : DB) (username : string) :
  users a = users b -> orgs a = orgs b ->
  lookup_query a username = lookup_query b username.
Proof.
  intros Hu Ho. unfold lookup_query, left_join_orgs. rewrite Hu, Ho.
  reflexivity.
Qed.

(** The lookup of sign-in after a password update: the same row, with
    the new digest if the update reached it. *)
Lemma lookup_query_update_password (db : DB) (hash : string) (updated : Z)
  (email username : string) (r : UserRow * option OrgRow) :
  lookup_query db username = Some r ->
  exists v,
    lookup_query (update_password db hash updated email) username
    = Some (v, snd r)
    /\ u_id v = u_id (fst r)
    /\ u_passive v = u_passive (fst r)
    /\ u_suspended v = u_suspended (fst r)
    /\ (sql_eq (u_email (fst r)) email = true -> u_deleted (fst r) = 0 ->
        u_password_hash v = hash).
Proof.
  intros Hq.
  set (upd := fun u : UserRow =>
                if sql_eq (u_email u) email && (u_deleted u =? 0)
                then mkUserRow (u_id u) (u_uid u) (u_username u) (u_email u)
                               (u_first_name u) (u_last_name u) (u_phone u)
                               hash (u_org_id u) updated (u_created u)
                               (u_deleted u) (u_role u) (u_suspended u)
                               (u_invite_code u) (u_passive u)
                else u).
  assert (Hjoin : left_join_orgs (update_password db hash updated email)
                  = map (fun x => (upd (fst x), snd x)) (left_join_orgs db)).
  { unfold left_join_orgs, update_password. cbn [users orgs].
    change (map _ (users db)) with (map upd (users db)) at 1.
    set (J := fun u : UserRow =>
                match filter (fun o => o_id o =? u_org_id u) (orgs db) with
                | [] => [(u, @None OrgRow)]
                | os => map (fun o => (u, Some o)) os
                end).
    assert (HJ : forall v, J (upd v)
                           = map (fun x => (upd (fst x), snd x)) (J v)).
    { intros v. unfold J.
      assert (Ho : u_org_id (upd v) = u_org_id v)
        by (unfold upd;
            destruct (sql_eq (u_email v) email && (u_deleted v =? 0));
            reflexivity).
      rewrite Ho.
      destruct (filter (fun o => o_id o =? u_org_id v) (orgs db))
        as [|o os]; [reflexivity|].
      rewrite map_map. reflexivity. }
    induction (users db) as [|v l IH]; [reflexivity|].
    cbn [map flat_map]. rewrite map_app, IH, HJ. reflexivity. }
  unfold lookup_query in *. rewrite Hjoin.
  rewrite (find_map_inv (lookup_where username)
             (fun x => (upd (fst x), snd x))).
  - rewrite Hq. cbn [option_map]. exists (upd (fst r)).
    split; [reflexivity|]. unfold upd.
    destruct (sql_eq (u_email (fst r)) email) eqn:E1;
      destruct (u_deleted (fst r) =? 0) eqn:E2; cbn [andb];
      repeat split; try reflexivity; intros; try discriminate.
    apply Z.eqb_neq in E2. contradiction.
  - intros x. unfold lookup_where. cbn [fst]. unfold upd.
    destruct (sql_eq (u_email (fst x)) email && (u_deleted (fst x) =? 0));
      reflexivity.
Qed.

Lemma ChangePassword_success_inv (us : Users) (e : Env) (db : DB)
  (p : ChangePasswordParams) :
  fst (ChangePassword us e db p) = None ->
  fault e ChangeUpdateExec = false ->
  exists hash db1,
    bcrypt_GenerateFromPassword (cp_NewPassword p) 12 (rand_salt e)
    = Some hash
    /\ users db1 = users db /\ orgs db1 = orgs db
    /\ snd (ChangePassword us e db p)
       = update_password db1 hash (Milliseconds (now e)) (cp_Email p).
Proof.
  intros Hok FE. revert Hok. unfold ChangePassword, hashPassword.
  destruct (negb (String.eqb (cp_ExistingPassword p) "")).
  - destruct (SignIn_only_appends_attempts us e db
                (mkSignInParams "" (cp_Email p) (cp_ExistingPassword p) None))
      as (Hu & Ho & _).
    destruct (SignIn us e db _) as [[u|err1] db1]; cbn [snd] in *;
      [|cbn; discriminate].
    destruct (bcrypt_GenerateFromPassword (cp_NewPassword p) 12 (rand_salt e))
      as [hash|]; [|cbn; discriminate].
    destruct (fault e ChangeUpdatePrepare); [cbn; discriminate|].
    rewrite FE. intros _. exists hash, db1. auto.
  - destruct (negb (String.eqb (cp_ResetToken p) ""));
      [|cbn; discriminate].
    pose proof (consume_token_users us e db p) as Hu.
    assert (Ho : orgs (snd (Tx db (consume_token us e p))) = orgs db).
    { unfold Tx, consume_token.
      destruct (fault e ChangeSelect); [reflexivity|].
      destruct (latest_reset db (cp_Email p)) as [r|]; [|reflexivity].
      destruct (negb (String.eqb (pr_reset_token r) (cp_ResetToken p)));
        [reflexivity|].
      destruct (Milliseconds (now e) >? expires_at us (pr_created r));
        [reflexivity|].
      destruct (fault e ChangeRevoke); reflexivity. }
    destruct (Tx db (consume_token us e p)) as [[t|err1] db1];
      cbn [snd] in *; [|cbn; discriminate].
    destruct (bcrypt_GenerateFromPassword (cp_NewPassword p) 12 (rand_salt e))
      as [hash|]; [|cbn; discriminate].
    destruct (fault e ChangeUpdatePrepare); [cbn; discriminate|].
    rewrite FE. intros _. exists hash, db1. auto.
Qed.

(** X24. After a successful change, the new password signs in.  If the
    sign-in lookup resolves the e-mail of the request to a live account
    that carries it as its e-mail, and that account is not suspended,
    passive or of a suspended organization, then once change-password
    has returned success with its update executed, a sign-in with the
    e-mail and the new password, not rate limited and with the store
    answering, returns that account. *)
Theorem ChangePassword_then_SignIn (us : Users) (e e2 : Env) (db : DB)
  (p : ChangePasswordParams) (r : UserRow * option OrgRow) :
  (forall password salt h,
     bcrypt_GenerateFromPassword password 12 salt = Some h ->
     bcrypt_CompareHashAndPassword h password = true) ->
  fst (ChangePassword us e db p) = None ->
  fault e ChangeUpdateExec = false ->
  lookup_query db (cp_Email p) = Some r ->
  sql_eq (u_email (fst r)) (cp_Email p) = true ->
  u_deleted (fst r) = 0 ->
  Suspended (uwc_User (scan_claims r))
  || OrgSuspended (uwc_Claims (scan_claims r))
  || Passive (uwc_User (scan_claims r)) = false ->
  (forall s, fault e2 s = false) ->
  fst (isLocked us e2 (snd (ChangePassword us e db p)) (cp_Email p)) = false ->
  exists c,
    fst (SignIn us e2 (snd (ChangePassword us e db p))
                (mkSignInParams "" (cp_Email p) (cp_NewPassword p) None))
    = Ok c
    /\ Id (uwc_User c) = u_id (fst r).
Proof.
  intros Hbcrypt Hok FE Hq Hmail Hlive Hgate Hf Hlock.
  destruct (ChangePassword_success_inv us e db p Hok FE)
    as (hash & db1 & Hgen & Hu & Ho & Hsnd).
  assert (Hq1 : lookup_query db1 (cp_Email p) = Some r)
    by (rewrite (lookup_query_ext db1 db _ Hu Ho); exact Hq).
  destruct (lookup_query_update_password db1 hash (Milliseconds (now e))
              (cp_Email p) (cp_Email p) r Hq1)
    as (v & Hq2 & Hid & Hpas & Hsus & Hhash).
  rewrite <- Hsnd in Hq2.
  exists (scan_claims (v, snd r)). split.
  - rewrite SignIn_unfold.
    change (signin_identifier us
              (mkSignInParams "" (cp_Email p) (cp_NewPassword p) None))
      with (cp_Email p).
    rewrite Hlock. unfold authenticate, GetByUsername. rewrite !Hf.
    rewrite lookup_query_isLocked, Hq2.
    assert (Hgate2 : Suspended (uwc_User (scan_claims (v, snd r)))
                     || OrgSuspended (uwc_Claims (scan_claims (v, snd r)))
                     || Passive (uwc_User (scan_claims (v, snd r))) = false).
    { revert Hgate. unfold scan_claims. cbn. rewrite Hpas, Hsus. auto. }
    rewrite Hgate2. cbn [fst si_Password].
    rewrite (Hhash Hmail Hlive), (Hbcrypt _ _ _ Hgen). reflexivity.
  - cbn. exact Hid.
Qed.

(** X25. The username a sign-up settles on.  For every account [SignUp]
    returns: under the username-is-e-mail policy the username is the
    e-mail, whatever username the caller sent; without that policy it is
    the username sent, or the e-mail when none was sent; the account is
    not suspended and, when an e-mail was sent, carries it unchanged. *)
Theorem SignUp_username_policy (us : Users) (e : Env) (db : DB)
  (p : SignUpParams) (u : User) (token : string) :
  fst (SignUp us e db p) = Ok (u, token) ->
  (us_UsernameIsEmail us = true -> Username u = Email u)
  /\ (us_UsernameIsEmail us = false -> su_Username p <> "" ->
      Username u = su_Username p)
  /\ (su_Username p = "" -> Username u = Email u)
  /\ (su_Email p <> "" -> Email u = su_Email p)
  /\ Suspended u = false.
Proof.
  intros Hok.
  destruct (SignUp_success_inv us e db p u token Hok)
    as (hash & _ & _ & _ & _ & ->).
  unfold scan_user, signup_row, signup_username, signup_email. cbn.
  repeat split.
  - intros ->. reflexivity.
  - intros -> Hne. rewrite (String_eqb_neq_false _ _ Hne). reflexivity.
  - intros ->. rewrite orb_true_r. reflexivity.
  - intros Hne. rewrite (String_eqb_neq_false _ _ Hne), andb_false_r.
    reflexivity.
Qed.

(** X26. What [ResetPassword] answers when it issues nothing.  With the
    lookup answered, an identifier that matches no row gets NotFound and
    one that resolves to a passive account gets NotAuthenticated; in
    both cases nothing is written.  Unlike sign-in, a reset request thus
    tells an unknown identifier from a known one. *)
Theorem ResetPassword_refusals (us : Users) (e : Env) (db : DB)
  (p : ResetPasswordParams) :
  fault e LookupPrepare = false ->
  fault e LookupScan = false ->
  (lookup_query db (rp_Email p) = None ->
   ResetPassword us e db p = (Err NotFoundError, db))
  /\ (forall r, lookup_query db (rp_Email p) = Some r ->
                u_passive (fst r) = Some true ->
                ResetPassword us e db p = (Err ErrNotAuth, db)).
Proof.
  intros F1 F2. unfold ResetPassword, GetByUsername. rewrite F1, F2. split.
  - intros ->. reflexivity.
  - intros r -> Hp. unfold scan_claims. cbn. rewrite Hp. reflexivity.
Qed.

End Engine.

(** ** Evaluations *)


(** A run with [N = 2] and [D = 300] seconds, by the account's owner:
    the third attempt within the window is refused, refused attempts are
    recorded and keep the window full, and the identifier is released once
    fewer than two recorded attempts remain in the window. *)
Example lockout_run :
  signin_run binary_eq demo_compare demo_users (mkDB [bob_row] [] [] [])
             bob_signin
             [100000000; 100010000; 100020000; 100030000;
              100305000; 100325000; 100640000; 100650000; 100660000]
  = [Some true; Some true; None; None; None; None; Some true; Some true; None].
Proof. reflexivity. Qed.

Lemma signin_fail_closed_witness :
  fst (SignIn binary_eq demo_compare demo_users
              (failing_env 100000000 "t" AttemptExec) empty_db bob_signin)
  = Err ErrRateLimit.
Proof.
  exact (proj2 (signin_fail_closed binary_eq demo_compare demo_users
                  (failing_env 100000000 "t" AttemptExec) empty_db bob_signin
                  (or_intror (or_introl eq_refl)))).
Defined.

Lemma zero_attempts_locks_everyone_witness :
  fst (SignIn binary_eq demo_compare
              (NewUsers demo_gen (mkUserOpts 0 0 None None 0))
              (demo_env 100000000 "t") (mkDB [bob_row] [] [] []) bob_signin)
  = Err ErrRateLimit.
Proof.
  refine (proj2 (proj2 (zero_attempts_locks_everyone binary_eq demo_compare
                          demo_gen (mkUserOpts 0 0 None None 0)
                          (demo_env 100000000 "t") (mkDB [bob_row] [] [] [])
                          bob_signin String.eqb_refl eq_refl _ _ _))).
  - simpl. lia.
  - simpl. lia.
  - unfold Int64.max_int. simpl. lia.
Defined.

Lemma flagged_account_never_signs_in_witness :
  let db := snd (SignUp binary_eq demo_generate demo_users
                        (demo_env 1000 "s") empty_db passive_signup) in
  fst (SignIn binary_eq demo_compare demo_users (demo_env 2000 "t") db
              (mkSignInParams "" "svc@x.com" "s-rand-0" None))
  = Err ErrNotAuth.
Proof.
  intros db.
  assert (Hq : lookup_query binary_eq db
                 (signin_identifier demo_users
                    (mkSignInParams "" "svc@x.com" "s-rand-0" None))
               = Some (mkUserRow 1 "s-uuid-1" "svc@x.com" "svc@x.com" "" "" ""
                                 "$2a$12$s-rand-0" 0 1000 1000 0 0 0 ""
                                 (Some true), None))
    by reflexivity.
  exact (proj2 (flagged_account_never_signs_in binary_eq demo_compare
                  demo_users (demo_env 2000 "t") db _ _ Hq (or_introl eq_refl))
               eq_refl eq_refl eq_refl).
Defined.


(** C3. Case-insensitive uniqueness at sign-up: the code departs from it.
    [SignUp] checks the username as the caller sent it and only afterwards
    replaces an empty username by the e-mail.  After a first account with
    username [a@x.com] and e-mail [b@y.com], a sign-up with no username
    and e-mail [a@x.com] finds no match, succeeds, and inserts a second
    live account whose username is [a@x.com] too, under a case-sensitive
    and under a case-insensitive collation alike.  Moreover the query
    compares with the collation of the store, so that under a
    case-sensitive one [A@X.COM] signs up next to [a@x.com]. *)
Theorem signup_inserts_duplicate_username :
  Forall
    (fun collation =>
       let db1 := snd (SignUp collation demo_generate demo_users
                              (demo_env 1000 "s1") empty_db first_signup) in
       let second := SignUp collation demo_generate demo_users
                            (demo_env 2000 "s2") db1 second_signup in
       is_ok (fst second) = true
       /\ exists u1 u2,
            users (snd second) = [u1; u2]
            /\ u_id u1 <> u_id u2
            /\ u_deleted u1 = 0 /\ u_deleted u2 = 0
            /\ ToLower (u_username u1) = ToLower (u_username u2))
    [binary_eq; nocase_eq]
  /\ (let db1 := snd (SignUp binary_eq demo_generate default_policy_users
                             (demo_env 1000 "s1") empty_db lower_signup) in
      let second := SignUp binary_eq demo_generate default_policy_users
                           (demo_env 2000 "s2") db1 upper_signup in
      is_ok (fst second) = true
      /\ map (fun u => (u_email u, u_deleted u)) (users (snd second))
         = [("a@x.com", 0); ("A@X.COM", 0)]
      /\ ToLower "a@x.com" = ToLower "A@X.COM").
Proof.
  split.
  - repeat apply Forall_cons; try apply Forall_nil;
      (split; [reflexivity|]);
      eexists; eexists;
      (split; [vm_compute; reflexivity|]);
      simpl; repeat split; discriminate.
  - repeat split.
Qed.

(** C5. Single active reset token: the code departs from it.
    [ResetPassword] revokes the tokens stored under the string the caller
    sent and inserts the new token under the account's e-mail.  For an
    account with username [bob@a.com] and e-mail [bob@x.com], a reset
    requested as [bob@x.com] followed by one requested as [bob@a.com]
    leaves two live tokens for [bob@x.com]. *)
Theorem reset_leaves_two_live_tokens :
  Forall
    (fun collation =>
       let db1 := snd (ResetPassword collation demo_users
                         (demo_env 1000 "r1") bobby_db
                         (mkResetPasswordParams "bob@x.com" None)) in
       let second := ResetPassword collation demo_users (demo_env 2000 "r2")
                       db1 (mkResetPasswordParams "bob@a.com" None) in
       fst second = Ok "r2-rand-0"
       /\ filter (live_reset collation "bob@x.com")
                 (password_resets (snd second))
          = [mkResetRow 1 "bob@x.com" "r1-rand-0" 1000 0;
             mkResetRow 1 "bob@x.com" "r2-rand-0" 2000 0])
    [binary_eq; nocase_eq].
Proof.
  repeat apply Forall_cons; try apply Forall_nil; split; reflexivity.
Qed.

(** C7 (as stated) fails.  [Users.ChangePassword] checks no strength rule:
    with the right existing password it stores the digest of [abcdefgh],
    which the rule refuses; and a request that carries a custom validator
    passes [Validate] with that password. *)
Lemma weak_password_accepted :
  ~ spec_strength_rule "abcdefgh"
  /\ ChangePassword binary_eq demo_generate demo_compare demo_users
       (demo_env 2000 "c") (mkDB [alice_row] [] [] [])
       (mkChangePasswordParams "alice@x.com" "old" "abcdefgh" "" None)
     = (None,
        mkDB [mkUserRow 1 "uid-alice" "alice" "alice@x.com" "" "" ""
                        "$2a$12$abcdefgh" 0 2000 0 0 0 0 "" (Some false)]
             [] [mkAttemptRow "alice@x.com" 2000] [])
  /\ ChangePasswordParams_Validate demo_is_email
       (mkChangePasswordParams "alice@x.com" "old" "abcdefgh" ""
          (Some (fun _ => None)))
     = None.
Proof.
  split; [|split; reflexivity].
  intros H. apply ValidatePassword_spec in H. discriminate H.
Qed.

Lemma validate_new_password_strength_witness :
  ChangePasswordParams_Validate demo_is_email
    (mkChangePasswordParams "alice@x.com" "old" "abcdefgh" "" None)
  = Some ErrPasswordInvalid.
Proof.
  refine (proj2 (validate_new_password_strength demo_is_email
                   (mkChangePasswordParams "alice@x.com" "old" "abcdefgh" ""
                      None)
                   eq_refl) _ _ eq_refl _ _).
  - intros H. apply ValidatePassword_spec in H. discriminate H.
  - discriminate.
  - left. discriminate.
  - discriminate.
Defined.

(** The examples of the specification. *)
Example password_strength_examples :
  ValidatePassword "Abcdef1!" = true
  /\ ValidatePassword "abcdefgh" = false
  /\ ValidatePassword "abcdefghijklmno" = true
  /\ ValidatePassword "abcdefghijklmn" = false.
Proof. repeat split. Qed.

(** C8. Change-password and atomicity: the code departs from it.  The
    token is revoked in a transaction of its own, and the result of the
    final [UPDATE] is dropped.  When that update fails, [ChangePassword]
    returns no error although the old digest is still stored and the
    token is spent; when preparing it fails, the caller gets the error
    but the token stays revoked. *)
Theorem change_password_not_atomic :
  let spent := mkDB [alice_row] [] []
                    [mkResetRow 1 "alice@x.com" "tok" 1000 1] in
  u_password_hash alice_row = "$2a$12$old"
  /\ ChangePassword binary_eq demo_generate demo_compare demo_users
       (failing_env 2000 "c" ChangeUpdateExec) alice_db
       (alice_change "N3w!Passw0rd")
     = (None, spent)
  /\ ChangePassword binary_eq demo_generate demo_compare demo_users
       (failing_env 2000 "c" ChangeUpdatePrepare) alice_db
       (alice_change "N3w!Passw0rd")
     = (Some (ErrDriver ChangeUpdatePrepare), spent).
Proof. repeat split. Qed.

(** C9. Sign-in lookup and soft-deleted accounts: the code departs from
    it.  In [WHERE u.email = ? OR u.username = ? AND u.deleted = 0] the
    deleted flag guards the username branch only.  A soft-deleted account
    is found and authenticated through its e-mail; through its username
    it is not. *)
Theorem signin_authenticates_deleted_account_by_email :
  Forall
    (fun collation =>
       let db := mkDB [deleted_alice] [] [] [] in
       u_deleted deleted_alice = 1
       /\ fst (SignIn collation demo_compare demo_users (demo_env 2000 "t") db
                      (mkSignInParams "" "alice@x.com" "secret" None))
          = Ok (scan_claims (deleted_alice, None))
       /\ fst (SignIn collation demo_compare demo_users (demo_env 2000 "t") db
                      (mkSignInParams "" "alice" "secret" None))
          = Err ErrNotAuth)
    [binary_eq; nocase_eq].
Proof.
  repeat apply Forall_cons; try apply Forall_nil; repeat split.
Qed.

(** ** Evaluations of the further properties *)

Lemma binary_eq_sound (x y : string) :
  binary_eq x y = true -> ToLower x = ToLower y.
Proof.
  unfold binary_eq. intros H. apply String.eqb_eq in H. rewrite H.
  reflexivity.
Qed.

Lemma demo_bcrypt_contract (password salt h : string) :
  demo_generate password 12 salt = Some h -> demo_compare h password = true.
Proof.
  unfold demo_generate, demo_compare. intros H. inversion H.
  apply String.eqb_refl.
Qed.

Lemma SignIn_outcomes_witness :
  fst (SignIn binary_eq demo_compare demo_users (demo_env 100000000 "t")
              lock_db bob_signin) = Err ErrRateLimit.
Proof.
  exact (proj2 (proj1 (proj2 (SignIn_outcomes binary_eq demo_compare
                                demo_users (demo_env 100000000 "t") lock_db
                                bob_signin (fun _ => eq_refl))))
               eq_refl).
Defined.

Lemma flagged_signin_records_two_attempts_witness :
  password_attempts
    (snd (SignIn binary_eq demo_compare demo_users (demo_env 2000 "t")
                 (mkDB [svc_row] [] [] [])
                 (mkSignInParams "" "svc" "pw" None)))
  = [mkAttemptRow "svc" 2000; mkAttemptRow "svc" 2000].
Proof.
  exact (flagged_signin_records_two_attempts binary_eq demo_compare
           demo_users (demo_env 2000 "t") (mkDB [svc_row] [] [] [])
           (mkSignInParams "" "svc" "pw" None) (svc_row, None)
           (fun _ => eq_refl) eq_refl eq_refl (or_introl eq_refl)).
Defined.

Lemma SignUp_then_Get_witness :
  let signed := SignUp binary_eq demo_generate demo_users (demo_env 1000 "s")
                       empty_db first_signup in
  let u := fst (ok_value (zero_User, "") (fst signed)) in
  Get (admin_ok 2000) (snd signed) 1 = AOk u.
Proof.
  intros signed u.
  exact (SignUp_then_Get binary_eq demo_generate demo_users
           (demo_env 1000 "s") (admin_ok 2000) empty_db first_signup u ""
           eq_refl eq_refl eq_refl).
Defined.

Lemma SignUp_then_SignIn_witness :
  let signed := SignUp binary_eq demo_generate demo_users (demo_env 1000 "s")
                       empty_db first_signup in
  let u := fst (ok_value (zero_User, "") (fst signed)) in
  exists c,
    fst (SignIn binary_eq demo_compare demo_users (demo_env 2000 "t")
                (snd signed) (mkSignInParams "" "b@y.com" "pw1" None)) = Ok c
    /\ uwc_User c = u.
Proof.
  intros signed u.
  refine (SignUp_then_SignIn binary_eq demo_generate demo_compare demo_users
            (demo_env 1000 "s") (demo_env 2000 "t") empty_db first_signup
            u "" String.eqb_refl binary_eq_sound demo_bcrypt_contract
            _ eq_refl eq_refl _ _ (fun _ => eq_refl) eq_refl).
  - discriminate.
  - intros v [].
  - intros o [].
Defined.

Lemma SignUp_refuses_email_of_any_row_witness :
  SignUp binary_eq demo_generate demo_users (demo_env 1000 "s")
         (mkDB [deleted_alice] [] [] []) alice_again
  = (Err ErrEmailTaken, mkDB [deleted_alice] [] [] []).
Proof.
  refine (proj2 (SignUp_refuses_email_of_any_row binary_eq demo_generate
                   demo_users (demo_env 1000 "s")
                   (mkDB [deleted_alice] [] [] []) alice_again deleted_alice
                   String.eqb_refl binary_eq_sound eq_refl eq_refl _
                   (or_introl eq_refl) eq_refl) _).
  - discriminate.
  - intros w [<- | []]. discriminate.
Defined.

Lemma SignUp_error_after_insert_witness :
  is_ok (fst (SignUp binary_eq demo_generate demo_users
                     (reset_failing_env 1000 "s") empty_db al_signup)) = false
  /\ map u_email
         (users (snd (SignUp binary_eq demo_generate demo_users
                             (reset_failing_env 1000 "s") empty_db al_signup)))
     = ["al@x.com"].
Proof.
  destruct (SignUp_error_after_insert binary_eq demo_generate demo_users
              (reset_failing_env 1000 "s") empty_db al_signup false
              "$2a$12$s-rand-0" eq_refl eq_refl eq_refl eq_refl eq_refl
              eq_refl eq_refl eq_refl) as [(err & He) Hu].
  split; [rewrite He; reflexivity | rewrite Hu; reflexivity].
Defined.

Lemma ChangePassword_error_keeps_users_witness :
  users (snd (ChangePassword binary_eq demo_generate demo_compare demo_users
                (demo_env 2000 "c") alice_db
                (mkChangePasswordParams "alice@x.com" "" "N3w!Passw0rd"
                   "guess" None)))
  = [alice_row].
Proof.
  exact (ChangePassword_error_keeps_users binary_eq demo_generate
           demo_compare demo_users (demo_env 2000 "c") alice_db
           (mkChangePasswordParams "alice@x.com" "" "N3w!Passw0rd" "guess"
              None)
           ErrInvalidResetToken eq_refl).
Defined.

Lemma ChangePassword_without_live_email_witness :
  let changed := ChangePassword binary_eq demo_generate demo_compare
                   demo_users (demo_env 2000 "c") bobby_db
                   (mkChangePasswordParams "bob@a.com" "secret"
                      "N3w!Passw0rd" "" None) in
  fst changed = None /\ users (snd changed) = users bobby_db.
Proof.
  intros changed. split; [reflexivity|].
  refine (ChangePassword_without_live_email binary_eq demo_generate
            demo_compare demo_users (demo_env 2000 "c") bobby_db
            (mkChangePasswordParams "bob@a.com" "secret" "N3w!Passw0rd" ""
               None) _).
  intros v [<- | []]. reflexivity.
Defined.

Lemma ResetPassword_then_ChangePassword_witness :
  let db1 := snd (ResetPassword binary_eq demo_users (demo_env 1000 "r1")
                    (mkDB [alice_row] [] [] [])
                    (mkResetPasswordParams "alice@x.com" None)) in
  fst (ChangePassword binary_eq demo_generate demo_compare demo_users
         (demo_env (1000 + 86400 * 1000) "c") db1
         (mkChangePasswordParams "alice@x.com" "" "N3w!Passw0rd" "r1-rand-0"
            None))
  = None.
Proof.
  intros db1.
  assert (R1 : Int64.in_range (us_ResetTokenExpiry demo_users * 1000))
    by (vm_compute; split; discriminate).
  assert (R2 : Int64.in_range
                 (now (demo_env 1000 "r1")
                  + us_ResetTokenExpiry demo_users * 1000))
    by (vm_compute; split; discriminate).
  assert (Hne : us_PassGen demo_users 128 (rand_seed (demo_env 1000 "r1") 0%nat)
                <> "") by discriminate.
  assert (Hnow : now (demo_env (1000 + 86400 * 1000) "c")
                 <= now (demo_env 1000 "r1")
                    + us_ResetTokenExpiry demo_users * 1000)
    by (vm_compute; discriminate).
  pose proof (ResetPassword_then_ChangePassword binary_eq demo_generate
                demo_compare demo_users (demo_env 1000 "r1")
                (demo_env (1000 + 86400 * 1000) "c")
                (mkDB [alice_row] [] [] [])
                (mkResetPasswordParams "alice@x.com" None) (alice_row, None)
                "N3w!Passw0rd" "$2a$12$N3w!Passw0rd"
                (fun _ => eq_refl) (fun _ => eq_refl) eq_refl
                ltac:(discriminate) eq_refl Hne eq_refl R1 R2 Hnow) as H.
  cbv zeta in H. destruct H as [_ H].
  exact (f_equal fst H).
Defined.

Lemma reset_token_single_use_witness :
  fst (ChangePassword binary_eq demo_generate demo_compare demo_users
         (demo_env 3000 "c2")
         (snd (ChangePassword binary_eq demo_generate demo_compare demo_users
                 (demo_env 2000 "c") alice_db (alice_change "N3w!Passw0rd")))
         (alice_change "An0ther!Passw0rd"))
  = Some NotFoundError.
Proof.
  refine (reset_token_single_use binary_eq demo_generate demo_compare
            demo_users (demo_env 2000 "c") (demo_env 3000 "c2") alice_db
            (alice_change "N3w!Passw0rd") (alice_change "An0ther!Passw0rd")
            eq_refl eq_refl eq_refl _ eq_refl eq_refl).
  discriminate.
Defined.

Lemma Delete_then_Get_witness :
  Get (admin_ok 3000)
      (snd (Delete demo_CheckUpdated (admin_ok 2000)
                   (mkDB [alice_row] [] [] []) 1)) 1
  = AErr ErrNotFound.
Proof.
  exact (proj1 (Delete_then_Get demo_CheckUpdated (admin_ok 2000)
                  (admin_ok 3000) (mkDB [alice_row] [] [] []) 1
                  eq_refl eq_refl eq_refl eq_refl)).
Defined.

Lemma Delete_revokes_username_signin_witness :
  is_ok (fst (SignIn binary_eq demo_compare demo_users (demo_env 3000 "t")
                (snd (Delete demo_CheckUpdated (admin_ok 2000)
                             (mkDB [alice_row] [] [] []) 1))
                (mkSignInParams "" "alice" "old" None)))
  = false.
Proof.
  destruct (fst (SignIn binary_eq demo_compare demo_users (demo_env 3000 "t")
                   (snd (Delete demo_CheckUpdated (admin_ok 2000)
                                (mkDB [alice_row] [] [] []) 1))
                   (mkSignInParams "" "alice" "old" None))) as [c|err] eqn:E;
    [|reflexivity].
  exfalso.
  refine (Delete_revokes_username_signin binary_eq demo_compare
            demo_CheckUpdated demo_users (admin_ok 2000) (demo_env 3000 "t")
            (mkDB [alice_row] [] [] []) 1
            (mkSignInParams "" "alice" "old" None) eq_refl eq_refl _ _ c E).
  - intros v [<- | []]. reflexivity.
  - intros v [<- | []] _ _. reflexivity.
Defined.

Lemma AssignRole_then_Get_witness :
  exists n db',
    1 <= n
    /\ AssignRole demo_CheckUpdated (admin_ok 2000)
         (mkDB [alice_row] [] [] [])
         (mkAssignRoleParams (Some 1) (Some 3) None)
       = Returns (demo_CheckUpdated (ExecOk n), db')
    /\ Get (admin_ok 3000) db' 1
       = AOk (mkUser 1 "uid-alice" "alice" "alice@x.com" "" "" "" 0 2000 0 3
                     false false).
Proof.
  exact (proj2 (AssignRole_then_Get demo_CheckUpdated (admin_ok 2000)
                  (admin_ok 3000) (mkDB [alice_row] [] [] []) 1 3
                  (scan_user alice_row) (fun _ => eq_refl) eq_refl eq_refl
                  eq_refl)
               eq_refl).
Defined.

Lemma Update_preserves_identity_witness :
  let out := returned (None, empty_db)
               (Update demo_CheckUpdated demo_ApplyUpdates demo_error_text
                       (admin_ok 2000) (mkDB [alice_row] [] [] []) new_email) in
  map (fun v => (u_username v, u_email v)) (users (snd out))
  = [("alice", "new@x.com")]
  /\ map (fun v => (u_id v, u_uid v, u_username v, u_password_hash v,
                    u_org_id v, u_created v, u_deleted v, u_role v,
                    u_suspended v, u_passive v)) (users (snd out))
     = map (fun v => (u_id v, u_uid v, u_username v, u_password_hash v,
                      u_org_id v, u_created v, u_deleted v, u_role v,
                      u_suspended v, u_passive v)) [alice_row].
Proof.
  intros out. split; [reflexivity|].
  exact (proj1 (Update_preserves_identity demo_CheckUpdated demo_ApplyUpdates
                  demo_error_text (admin_ok 2000) (mkDB [alice_row] [] [] [])
                  new_email (fst out) (snd out) eq_refl)).
Defined.

Lemma Update_then_Get_witness :
  exists r db',
    Update demo_CheckUpdated demo_ApplyUpdates demo_error_text
           (admin_ok 2000) (mkDB [alice_row] [] [] []) new_email
    = Returns (r, db')
    /\ Get (admin_ok 3000) db' 1
       = AOk (mkUser 1 "uid-alice" "alice" "new@x.com" "" "" "" 0 2000 0 0
                     false false).
Proof.
  exact (Update_then_Get demo_CheckUpdated demo_ApplyUpdates demo_error_text
           (admin_ok 2000) (admin_ok 3000) (mkDB [alice_row] [] [] [])
           new_email 1 (scan_user alice_row) (fun _ => eq_refl) eq_refl
           eq_refl eq_refl eq_refl eq_refl).
Defined.

Lemma SignInParams_Validate_ignores_email_witness :
  SignInParams_Validate demo_is_email
    (mkSignInParams "alice@x.com" "" "old" None)
  = Some ErrUsernameOrEmailRequired.
Proof.
  refine (proj2 (SignInParams_Validate_ignores_email demo_is_email
                   (mkSignInParams "alice@x.com" "" "old" None)
                   eq_refl eq_refl) _ eq_refl).
  discriminate.
Defined.

Lemma list_queries_text_ignores_values_witness :
  fst (list_queries (by_name "bob"))
  = fst (list_queries (by_name "x%' OR 1=1 --")).
Proof.
  exact (list_queries_text_ignores_values (by_name "bob")
           (by_name "x%' OR 1=1 --") eq_refl).
Defined.

Lemma List_scan_failure_returns_nothing_witness :
  List (demo_list_store
          [(mkUserRow 1 "uid" "alice" "alice@x.com" "" "" "" "" 0 0 0 0 0 2 ""
                      (Some false), None)])
       (by_name "")
  = (None, None).
Proof.
  refine (proj2 (List_scan_failure_returns_nothing
                   (demo_list_store
                      [(mkUserRow 1 "uid" "alice" "alice@x.com" "" "" "" "" 0
                                  0 0 0 0 2 "" (Some false), None)])
                   (by_name "")
                   [(mkUserRow 1 "uid" "alice" "alice@x.com" "" "" "" "" 0 0
                               0 0 0 2 "" (Some false), None)]
                   None 1 eq_refl eq_refl) _).
  eexists. split; [left; reflexivity|]. split; discriminate.
Defined.

Lemma ChangePassword_then_SignIn_witness :
  exists c,
    fst (SignIn binary_eq demo_compare demo_users (demo_env 3000 "t")
           (snd (ChangePassword binary_eq demo_generate demo_compare
                   demo_users (demo_env 2000 "c") alice_db
                   (alice_change "N3w!Passw0rd")))
           (mkSignInParams "" "alice@x.com" "N3w!Passw0rd" None))
    = Ok c
    /\ Id (uwc_User c) = 1.
Proof.
  exact (ChangePassword_then_SignIn binary_eq demo_generate demo_compare
           demo_users (demo_env 2000 "c") (demo_env 3000 "t") alice_db
           (alice_change "N3w!Passw0rd") (alice_row, None)
           demo_bcrypt_contract eq_refl eq_refl eq_refl eq_refl eq_refl
           eq_refl (fun _ => eq_refl) eq_refl).
Defined.

Lemma SignUp_username_policy_witness :
  let signed := SignUp binary_eq demo_generate default_policy_users
                  (demo_env 1000 "s") empty_db
                  (mkSignUpParams "nick" "" "pw1" "a@x.com" "" "" "" 0 0 false
                     None) in
  Username (fst (ok_value (zero_User, "") (fst signed))) = "a@x.com".
Proof.
  intros signed.
  exact (proj1 (SignUp_username_policy binary_eq demo_generate
                  default_policy_users (demo_env 1000 "s") empty_db
                  (mkSignUpParams "nick" "" "pw1" "a@x.com" "" "" "" 0 0 false
                     None)
                  (fst (ok_value (zero_User, "") (fst signed))) ""
                  eq_refl)
               eq_refl).
Defined.

Lemma ResetPassword_refusals_witness :
  ResetPassword binary_eq demo_users (demo_env 1000 "r")
    (mkDB [svc_row] [] [] []) (mkResetPasswordParams "nobody@x.com" None)
  = (Err NotFoundError, mkDB [svc_row] [] [] [])
  /\ ResetPassword binary_eq demo_users (demo_env 1000 "r")
       (mkDB [svc_row] [] [] []) (mkResetPasswordParams "svc@x.com" None)
     = (Err ErrNotAuth, mkDB [svc_row] [] [] []).
Proof.
  split.
  - exact (proj1 (ResetPassword_refusals binary_eq demo_users
                    (demo_env 1000 "r") (mkDB [svc_row] [] [] [])
                    (mkResetPasswordParams "nobody@x.com" None)
                    eq_refl eq_refl)
                 eq_refl).
  - exact (proj2 (ResetPassword_refusals binary_eq demo_users
                    (demo_env 1000 "r") (mkDB [svc_row] [] [] [])
                    (mkResetPasswordParams "svc@x.com" None)
                    eq_refl eq_refl)
                 (svc_row, None) eq_refl eq_refl).
Defined.
